(** * dex2com: the synchronisation engine of [src/syncer.js] and the
      Dexcom Share client of [src/dexcom-client.js], as a shallow embedding.

    The development follows the two source files:
    - JavaScript values the code manipulates (strings, numbers, the parsed
      body of a reply);
    - [DexcomClient]: session state, [authenticate], [readGlucoseValues],
      [writeGlucoseValues], [registerReceiver], run against a scripted
      server;
    - [Dex2ComSyncer]: [extractTimestamp], [sync], [cleanupOldTimestamps]
      and the event structure of [runDaemon].

    Console logging ([log]) and the reporting field [lastSyncTime] are
    write-only in the source and are left out. *)

From Stdlib Require Import ZArith String Ascii List Bool Lia DecimalString DecimalPos.
From stdpp Require Import base decidable countable gmap sets strings.
Import ListNotations.

Local Open Scope string_scope.
Local Open Scope Z_scope.

(** ** JavaScript strings and numbers *)

Module JS.

(** [s.includes(sub)]: [sub] occurs somewhere in [s]. *)
Fixpoint includes (s sub : string) : bool :=
  if String.prefix sub s then true
  else match s with
       | EmptyString => false
       | String _ s' => includes s' sub
       end.

(** [s.replace] with the global pattern of one double-quote character and
    the empty replacement: every double quote is removed. *)
Definition dquote : ascii := "034"%char.

Fixpoint strip_quotes (s : string) : string :=
  match s with
  | EmptyString => EmptyString
  | String c s' =>
      if Ascii.eqb c dquote then strip_quotes s'
      else String c (strip_quotes s')
  end.

(** [s.toLowerCase()] on the ASCII letters. *)
Definition lower_char (c : ascii) : ascii :=
  let n := nat_of_ascii c in
  if (Nat.leb 65 n && Nat.leb n 90)%bool then ascii_of_nat (n + 32) else c.

Fixpoint toLowerCase (s : string) : string :=
  match s with
  | EmptyString => EmptyString
  | String c s' => String (lower_char c) (toLowerCase s')
  end.

(** The regular-expression class [\d] (no unicode flag): ['0'..'9']. *)
Definition is_digit (c : ascii) : bool :=
  let n := nat_of_ascii c in (Nat.leb 48 n && Nat.leb n 57)%bool.

Definition digit_value (c : ascii) : Z := Z.of_nat (nat_of_ascii c) - 48.

(** Greedy [\d*] anchored at the head of [s]. *)
Fixpoint digits_prefix (s : string) : string :=
  match s with
  | EmptyString => EmptyString
  | String c s' => if is_digit c then String c (digits_prefix s') else EmptyString
  end.

(** [s.match(/\d+/)]: the regular-expression search tries every start
    position from the left; at each one [\d+] takes the longest run of
    digits and needs at least one.  [None] is JavaScript's [null]; [Some m]
    stands for the match array, [m] being its element 0. *)
Fixpoint match_digits (s : string) : option string :=
  match s with
  | EmptyString => None
  | String _ s' =>
      match digits_prefix s with
      | EmptyString => match_digits s'
      | m => Some m
      end
  end.

(** The Number values that arise as dedup keys.  A Number is an IEEE 754
    double: an integer below 2^53 is held exactly, a larger one is rounded
    to 53 significant bits, and from 2^1024 on the result is [Infinity]. *)
Inductive num : Type :=
| Finite (z : Z)
| Infinity
| NaN.

#[global] Instance num_eq_dec : EqDecision num.
Proof. solve_decision. Defined.

#[global] Instance num_countable : Countable num.
Proof.
  refine (inj_countable'
            (fun n => match n with
                      | Finite z => inl z
                      | Infinity => inr true
                      | NaN => inr false
                      end)
            (fun x => match x with
                      | inl z => Finite z
                      | inr true => Infinity
                      | inr false => NaN
                      end) _).
  intros []; reflexivity.
Defined.

(** Round a non-negative integer to 53 significant bits, ties to even. *)
Definition round53 (n : Z) : Z :=
  let e := Z.log2 n - 52 in
  if e <=? 0 then n
  else
    let q := Z.shiftr n e in
    let r := Z.land n (Z.ones e) in
    let half := Z.shiftl 1 (e - 1) in
    let q' := if r <? half then q
              else if half <? r then q + 1
              else if Z.even q then q else q + 1 in
    Z.shiftl q' e.

(** The Number value of a non-negative mathematical integer. *)
Definition toNumber (n : Z) : num :=
  let m := round53 n in
  if m <? 2 ^ 1024 then Finite m else Infinity.

(** The mathematical value of a string of decimal digits, read left to
    right with accumulator [acc]. *)
Fixpoint decimal_value (acc : Z) (s : string) : Z :=
  match s with
  | EmptyString => acc
  | String c s' => decimal_value (10 * acc + digit_value c) s'
  end.

(** [parseInt(s)] for a string that starts with a decimal digit or has
    none at its head: the longest prefix of digits is read in radix 10 and
    converted to a Number, and [NaN] is returned when that prefix is
    empty.  (White space, a sign and a [0x] prefix are the other things
    [parseInt] looks at; none can start a match of [\d+], apart from the
    [0] of [0x], where the match stops before the [x].) *)
Definition parseInt (s : string) : num :=
  match digits_prefix s with
  | EmptyString => NaN
  | ds => toNumber (decimal_value 0 ds)
  end.

(** [n > c] for a Number [n] and an integer [c]. *)
Definition num_gtb (n : num) (c : Z) : bool :=
  match n with
  | Finite z => c <? z
  | Infinity => true
  | NaN => false
  end.

(** [`${n}`] for an integer-valued Number. *)
Definition show_Z (z : Z) : string := NilZero.string_of_int (Z.to_int z).

(** Truthiness of a value that is a string or [null]/[undefined]. *)
Definition truthy (o : option string) : bool :=
  match o with
  | None => false
  | Some EmptyString => false
  | Some _ => true
  end.

End JS.

(** ** The Dexcom Share client ([src/dexcom-client.js]) *)

Module DexcomClient.

Import JS.

(** A glucose reading as the read endpoint returns it, and the record the
    write endpoint accepts.  The timestamp fields hold the remote encoding
    [/Date(1234567890000)/] and are strings, as [extractTimestamp]
    documents its parameter. *)
Record Reading : Type := mkReading {
  Value : Z;
  Trend : string;
  ST : string;
  DT : string;
  WT : string
}.

Record Egv : Type := mkEgv {
  egv_Trend : string;
  egv_ST : string;
  egv_DT : string;
  egv_Value : Z
}.

(** What [response.json()] yields when the body parses: an array, or any
    other value, of which the code looks at the properties [Code] and
    [Message] only ([None] when the property is missing; in the Share
    protocol both are strings). *)
Inductive json_value : Type :=
| JArray (items : list Reading)
| JOther (Code Message : option string).

(** The object [makeRequest] resolves with.  [json] is the result of
    [response.json()]: [None] is [null], returned when [JSON.parse]
    throws. *)
Record response : Type := mkResponse {
  status : Z;
  text : string;
  json : option json_value
}.

(** [res.statusCode >= 200 && res.statusCode < 300] *)
Definition ok (r : response) : bool := (200 <=? status r) && (status r <? 300).

(** How one HTTPS request ends: the promise of [makeRequest] resolves with
    a response, or rejects with the transport's error. *)
Inductive reply : Type :=
| Response (r : response)
| NetworkError (message : string).

(** The requests the client issues, with the data each one carries. *)
Inductive request : Type :=
| AuthenticatePublisherAccount (accountName password applicationId : string)
| LoginPublisherAccountById (accountId : option string) (password applicationId : string)
| ReadPublisherLatestGlucoseValues (sessionId : option string) (minutes maxCount : Z)
| PostReceiverEgvRecords (sessionId : option string) (SN : string) (Egvs : list Egv) (TA : Z)
| ReplacePublisherAccountMonitoredReceiver (sessionId : option string) (sn : string).

(** The remote end as one client sees it: the replies still to come, in
    order, the requests sent so far, and the value of
    [new Date().getTimezoneOffset()]. *)
Record Net : Type := mkNet {
  pending : list reply;
  sent : list request;
  timezoneOffset : Z
}.

(** The fields of a [DexcomClient] instance. *)
Record Client : Type := mkClient {
  username : string;
  password : string;
  region : string;
  baseUrl : string;
  applicationId : string;
  sessionId : option string;
  accountId : option string
}.

Definition set_sessionId (v : option string) (c : Client) : Client :=
  mkClient (username c) (password c) (region c) (baseUrl c) (applicationId c)
           v (accountId c).

Definition set_accountId (v : option string) (c : Client) : Client :=
  mkClient (username c) (password c) (region c) (baseUrl c) (applicationId c)
           (sessionId c) v.

(** [DexcomClient.BaseUrls[region] || DexcomClient.BaseUrls.ous], for a
    region tag. *)
Definition BaseUrls (region : string) : string :=
  if String.eqb region "us" then "https://share2.dexcom.com"
  else "https://shareous1.dexcom.com".

Definition constructor (username password region : string) : Client :=
  let region := toLowerCase region in
  {| username := username;
     password := password;
     region := region;
     baseUrl := BaseUrls region;
     applicationId := "d89443d2-327c-4a6f-89e5-496bbb0317db";
     sessionId := None;
     accountId := None |}.

(** *** Asynchronous methods

    An [async] method is a function of the client and the remote end.  Its
    promise is fulfilled with a value ([Ret]), rejected with an error
    ([Throw], carrying [error.message]), or never settled ([Pending]): the
    code sets no timeout, so a request the remote end does not answer
    leaves every caller waiting for ever.  The client and the remote end
    are returned as the method leaves them in all three cases. *)
Inductive outcome (A : Type) : Type :=
| Ret (a : A)
| Throw (message : string)
| Pending.
Arguments Ret {A} a.
Arguments Throw {A} message.
Arguments Pending {A}.

Definition M (A : Type) : Type := Client -> Net -> outcome A * Client * Net.

Definition ret {A} (a : A) : M A := fun c n => (Ret a, c, n).

Definition throw {A} (message : string) : M A := fun c n => (Throw message, c, n).

Definition bind {A B} (m : M A) (k : A -> M B) : M B :=
  fun c n =>
    match m c n with
    | (Ret a, c', n') => k a c' n'
    | (Throw e, c', n') => (Throw e, c', n')
    | (Pending, c', n') => (Pending, c', n')
    end.

(** [try { m } catch (error) { handler(error.message) }] *)
Definition try_catch {A} (m : M A) (handler : string -> M A) : M A :=
  fun c n =>
    match m c n with
    | (Throw e, c', n') => handler e c' n'
    | settled => settled
    end.

Definition this : M Client := fun c n => (Ret c, c, n).

Definition assign (f : Client -> Client) : M unit := fun c n => (Ret tt, f c, n).

Definition getTimezoneOffset : M Z := fun c n => (Ret (timezoneOffset n), c, n).

Notation "'let*' x := m 'in' k" := (bind m (fun x => k))
  (at level 10, x name, m at level 100, k at level 200).
Notation "m >> k" := (bind m (fun _ => k))
  (at level 200, right associativity).

(** [await this.makeRequest(options, data)]: the request goes out and the
    next reply of the remote end settles it. *)
Definition makeRequest (req : request) : M response :=
  fun c n =>
    let n' := mkNet (tail (pending n)) (sent n ++ [req]) (timezoneOffset n) in
    match pending n with
    | [] => (Pending, c, n')
    | Response r :: _ => (Ret r, c, n')
    | NetworkError e :: _ => (Throw e, c, n')
    end.

Definition zero_uuid : string := "00000000-0000-0000-0000-000000000000".

Definition authenticate : M (option string) :=
  try_catch
    (let* c := this in
     (if negb (truthy (accountId c)) then
        let* response := makeRequest
          (AuthenticatePublisherAccount (username c) (password c) (applicationId c)) in
        if negb (ok response) then
          throw ("Account authentication failed: " +:+ show_Z (status response))
        else
          assign (set_accountId (Some (strip_quotes (text response)))) >>
          if String.eqb (strip_quotes (text response)) zero_uuid then
            throw "Invalid credentials"
          else ret tt
      else ret tt) >>
     let* c := this in
     let* loginResponse := makeRequest
       (LoginPublisherAccountById (accountId c) (password c) (applicationId c)) in
     if negb (ok loginResponse) then
       throw ("Session login failed: " +:+ show_Z (status loginResponse))
     else
       assign (set_sessionId (Some (strip_quotes (text loginResponse)))) >>
       if String.eqb (strip_quotes (text loginResponse)) zero_uuid then
         throw "Login failed"
       else
         let* c := this in ret (sessionId c))
    (fun message => throw ("Authentication error: " +:+ message)).

(** [error?.Code === 'SessionIdNotFound'] *)
Definition Code_is (error : option json_value) (code : string) : bool :=
  match error with
  | Some (JOther (Some c) _) => String.eqb c code
  | _ => false
  end.

(** [error?.Message || fallback] *)
Definition Message_or (error : option json_value) (fallback : string) : string :=
  match error with
  | Some (JOther _ (Some m)) => if truthy (Some m) then m else fallback
  | _ => fallback
  end.

(** The test both [catch] blocks apply to [error.message]. *)
Definition isSessionError (message : string) : bool :=
  includes message "SessionIdNotFound"
  || includes message "Session not active"
  || includes message "timed out".

(** The two statements that forget the session. *)
Definition clear_session : M unit :=
  assign (set_sessionId None) >> assign (set_accountId None).

(** One pass through the [try]/[catch] of a data method ends in a value,
    or in [return this.method(...)]: the promise of the recursive call is
    returned without [await], so what it throws is not caught here. *)
Inductive attempt (A : Type) : Type :=
| Done (a : A)
| Again.
Arguments Done {A} a.
Arguments Again {A}.

(** The four statements both data methods run, in the [try] and in the
    [catch], when they see a session error: forget the tokens,
    authenticate afresh, call the method again. *)
Definition reauthenticate_and_retry {A} : M (attempt A) :=
  clear_session >> authenticate >> ret Again.

(** [if (!this.sessionId) { await this.authenticate(); }] *)
Definition require_session : M unit :=
  let* c := this in
  if negb (truthy (sessionId c)) then authenticate >> ret tt else ret tt.

Definition read_attempt (minutes maxCount : Z) : M (attempt (list Reading)) :=
  try_catch
    (let* c := this in
     let* response := makeRequest
       (ReadPublisherLatestGlucoseValues (sessionId c) minutes maxCount) in
     if status response =? 500 then
       let error := json response in
       let errorMessage := Message_or error "Unknown" in
       if Code_is error "SessionIdNotFound"
          || includes errorMessage "Session not active"
          || includes errorMessage "timed out"
       then reauthenticate_and_retry
       else throw ("Server error: " +:+ errorMessage)
     else if negb (ok response) then
       throw ("Failed to get readings: " +:+ show_Z (status response))
     else
       match json response with
       | Some (JArray readings) => ret (Done readings)
       | _ => ret (Done [])
       end)
    (fun message =>
       if isSessionError message
       then reauthenticate_and_retry
       else throw message).

(** [readGlucoseValues], with the depth of its self-calls bounded by
    [fuel]. *)
Fixpoint readGlucoseValues_fuel (fuel : nat) (minutes maxCount : Z)
  : M (list Reading) :=
  match fuel with
  | O => fun c n => (Pending, c, n)
  | S fuel' =>
      require_session >>
      let* a := read_attempt minutes maxCount in
      match a with
      | Done readings => ret readings
      | Again => readGlucoseValues_fuel fuel' minutes maxCount
      end
  end.

(** Every self-call comes after a reply was consumed, so the replies still
    pending bound the depth. *)
Definition readGlucoseValues (minutes maxCount : Z) : M (list Reading) :=
  fun c n => readGlucoseValues_fuel (S (length (pending n))) minutes maxCount c n.

Definition write_attempt (serialNumber : string) (egvs : list Egv) : M (attempt bool) :=
  try_catch
    (let* c := this in
     let* tz := getTimezoneOffset in
     let* response := makeRequest
       (PostReceiverEgvRecords (sessionId c) serialNumber egvs (- tz)) in
     if status response =? 500 then
       let error := json response in
       let errorMessage := Message_or error (text response) in
       if Code_is error "SessionIdNotFound"
          || includes errorMessage "Session not active"
          || includes errorMessage "timed out"
       then reauthenticate_and_retry
       else throw ("Server error: " +:+ errorMessage)
     else if negb (ok response) then
       throw ("Failed to write readings: " +:+ show_Z (status response)
              +:+ " - " +:+ text response)
     else ret (Done true))
    (fun message =>
       if isSessionError message
       then reauthenticate_and_retry
       else throw message).

Fixpoint writeGlucoseValues_fuel (fuel : nat) (serialNumber : string)
  (egvs : list Egv) : M bool :=
  match fuel with
  | O => fun c n => (Pending, c, n)
  | S fuel' =>
      require_session >>
      let* a := write_attempt serialNumber egvs in
      match a with
      | Done b => ret b
      | Again => writeGlucoseValues_fuel fuel' serialNumber egvs
      end
  end.

Definition writeGlucoseValues (serialNumber : string) (egvs : list Egv) : M bool :=
  fun c n => writeGlucoseValues_fuel (S (length (pending n))) serialNumber egvs c n.

Definition registerReceiver (serialNumber : string) : M bool :=
  require_session >>
  let* c := this in
  let* response := makeRequest
    (ReplacePublisherAccountMonitoredReceiver (sessionId c) serialNumber) in
  if negb (ok response) && negb (status response =? 500) then
    throw ("Failed to register receiver: " +:+ show_Z (status response))
  else ret true.

Definition getLatestReading : M (option Reading) :=
  let* readings := readGlucoseValues 10 1 in
  ret (head readings).

End DexcomClient.

(** ** The synchronisation engine ([src/syncer.js]) *)

Module Dex2ComSyncer.

Import JS DexcomClient.

Record Account : Type := mkAccount {
  account_username : string;
  account_password : string;
  account_region : string
}.

(** The configuration object of [index.js].  A numeric setting that is
    missing is falsy, as [0] is; [serialNumber] may be absent. *)
Record Config : Type := mkConfig {
  source : Account;
  dest : Account;
  syncIntervalMinutes : Z;
  maxReadingsPerSync : Z;
  config_serialNumber : option string
}.

(** The fields of a [Dex2ComSyncer] instance; [syncedTimestamps] is the
    ledger of keys already transferred. *)
Record Syncer : Type := mkSyncer {
  config : Config;
  sourceClient : Client;
  destClient : Client;
  syncedTimestamps : gset num;
  serialNumber : string
}.

Definition constructor (config : Config) : Syncer :=
  {| config := config;
     sourceClient :=
       DexcomClient.constructor (account_username (source config))
         (account_password (source config)) (account_region (source config));
     destClient :=
       DexcomClient.constructor (account_username (dest config))
         (account_password (dest config)) (account_region (dest config));
     syncedTimestamps := ∅;
     serialNumber :=
       if truthy (config_serialNumber config)
       then default "" (config_serialNumber config)
       else "DEX2COM0001" |}.

(** [extractTimestamp(dexcomDate)] *)
Definition extractTimestamp (dexcomDate : string) : num :=
  match match_digits dexcomDate with
  | Some m => parseInt m
  | None => Finite 0
  end.

(** The object [sync] returns. *)
Record SyncResult : Type := mkResult {
  success : bool;
  readCount : nat;
  writeCount : nat;
  skippedCount : nat;
  errors : list string
}.

(** [x || fallback] for a number. *)
Definition or_else (x fallback : Z) : Z := if x =? 0 then fallback else x.

(** The callback of [readings.filter]: the reading's key is not in the
    ledger. *)
Definition is_new (ledger : gset num) (reading : Reading) : bool :=
  negb (bool_decide (extractTimestamp (WT reading) ∈ ledger)).

(** The callback of [newReadings.map]. *)
Definition to_egv (reading : Reading) : Egv :=
  {| egv_Trend := Trend reading;
     egv_ST := ST reading;
     egv_DT := DT reading;
     egv_Value := Value reading |}.

(** The [forEach] that marks the transferred readings as synced. *)
Definition markSynced (newReadings : list Reading) (ledger : gset num) : gset num :=
  fold_left (fun l reading => {[ extractTimestamp (WT reading) ]} ∪ l)
            newReadings ledger.

(** [cleanupOldTimestamps], [now] being the value of [Date.now()]. *)
Definition cleanupOldTimestamps (now : Z) (ledger : gset num) : gset num :=
  let cutoff := now - 24 * 60 * 60 * 1000 in
  list_to_set (List.filter (fun ts => num_gtb ts cutoff) (elements ledger)).

Definition with_sourceClient (c : Client) (s : Syncer) : Syncer :=
  mkSyncer (config s) c (destClient s) (syncedTimestamps s) (serialNumber s).

Definition with_destClient (c : Client) (s : Syncer) : Syncer :=
  mkSyncer (config s) (sourceClient s) c (syncedTimestamps s) (serialNumber s).

Definition with_syncedTimestamps (l : gset num) (s : Syncer) : Syncer :=
  mkSyncer (config s) (sourceClient s) (destClient s) l (serialNumber s).

(** [x * y] for two integer-valued Numbers: the exact product, rounded to
    a double (to 53 significant bits, ties to even, the sign apart).  From
    2^1024 on the product is an infinity, which an integer cannot stand
    for: the numbers of the configuration are taken below that. *)
Definition times (x y : Z) : Z := Z.sgn (x * y) * round53 (Z.abs (x * y)).

(** The two constants [sync] computes from the configuration. *)
Definition minutes (s : Syncer) : Z :=
  or_else (times (syncIntervalMinutes (config s)) 3) 15.

Definition maxCount (s : Syncer) : Z :=
  or_else (maxReadingsPerSync (config s)) 12.

(** One cycle.  [now] is what [Date.now()] returns when the cycle prunes
    the ledger, [src] and [dst] are the remote ends of the two clients.
    The cycle yields its result, the syncer and the two remote ends as it
    leaves them; the result is [None] when a request was never answered
    and the promise of [sync] never settles. *)
Definition sync (now : Z) (s : Syncer) (src dst : Net)
  : option SyncResult * Syncer * Net * Net :=
  match readGlucoseValues (minutes s) (maxCount s) (sourceClient s) src with
  | (Pending, c, src') => (None, with_sourceClient c s, src', dst)
  | (Throw message, c, src') =>
      (Some (mkResult false 0 0 0 [message]), with_sourceClient c s, src', dst)
  | (Ret readings, c, src') =>
      let s := with_sourceClient c s in
      if (length readings =? 0)%nat then
        (Some (mkResult true (length readings) 0 0 []), s, src', dst)
      else
        let newReadings := List.filter (is_new (syncedTimestamps s)) readings in
        let skipped := (length readings - length newReadings)%nat in
        if (length newReadings =? 0)%nat then
          (Some (mkResult true (length readings) 0 skipped []), s, src', dst)
        else
          let egvs := map to_egv newReadings in
          match writeGlucoseValues (serialNumber s) egvs (destClient s) dst with
          | (Pending, d, dst') =>
              (None, with_destClient d s, src', dst')
          | (Throw message, d, dst') =>
              (Some (mkResult false (length readings) 0 skipped [message]),
               with_destClient d s, src', dst')
          | (Ret _, d, dst') =>
              let ledger :=
                cleanupOldTimestamps now
                  (markSynced newReadings (syncedTimestamps s)) in
              (Some (mkResult true (length readings) (length egvs) skipped []),
               with_syncedTimestamps ledger (with_destClient d s),
               src', dst')
          end
  end.

(** *** The daemon

    [runDaemon] awaits the registration of the receiver, awaits a first
    cycle, and then arms [setInterval] with a callback that calls
    [this.sync()].  What happens afterwards is driven by the event loop:
    the timer fires, or the promise of a cycle that is in flight
    settles. *)
Inductive phase : Type :=
| Registering
| InitialSync
| Armed.

Record Daemon : Type := mkDaemon {
  daemon_phase : phase;
  inFlight : nat;
  started : nat
}.

Inductive event : Type :=
| RegisterSettled
| CycleSettled
| Tick.

(** [runDaemon] up to its first [await]. *)
Definition runDaemon : Daemon := mkDaemon Registering 0 0.

(** One turn of the event loop.  [None]: the event cannot happen in that
    state (the timer is not armed yet, or nothing is in flight). *)
Definition daemon_step (d : Daemon) (e : event) : option Daemon :=
  match daemon_phase d, e with
  | Registering, RegisterSettled =>
      (* [await this.sync()], the initial cycle *)
      Some (mkDaemon InitialSync 1 1)
  | InitialSync, CycleSettled =>
      (* the initial cycle is over: [setInterval] is called *)
      Some (mkDaemon Armed 0 (started d))
  | Armed, Tick =>
      (* the callback runs [await this.sync()] whatever is in flight *)
      Some (mkDaemon Armed (S (inFlight d)) (S (started d)))
  | Armed, CycleSettled =>
      match inFlight d with
      | O => None
      | S k => Some (mkDaemon Armed k (started d))
      end
  | _, _ => None
  end.

Fixpoint daemon_run (d : Daemon) (es : list event) : option Daemon :=
  match es with
  | [] => Some d
  | e :: es' =>
      match daemon_step d e with
      | None => None
      | Some d' => daemon_run d' es'
      end
  end.

End Dex2ComSyncer.

(** ** Vocabulary of the statements *)

Module Props.

Import JS DexcomClient Dex2ComSyncer.

(** A computation leaves no more replies pending than it found. *)
Definition no_growth {B} (m : M B) : Prop :=
  forall c n, (length (pending (m c n).2) <= length (pending n))%nat.

(** A computation that starts with a request: with nothing pending it
    never settles, otherwise it uses up at least one reply. *)
Definition consumes {B} (m : M B) : Prop :=
  forall c n,
    (pending n = [] -> (m c n).1.1 = Pending)
    /\ (pending n <> [] ->
        (length (pending (m c n).2) < length (pending n))%nat).

(** Every request a computation sends satisfies [P]. *)
Definition sends_only {B} (P : request -> Prop) (m : M B) : Prop :=
  forall c n, exists l, sent (m c n).2 = (sent n ++ l)%list /\ Forall P l.


(** A request of [writeGlucoseValues serialNumber egvs]: the two requests
    of [authenticate], or an upload of that very batch. *)
Definition write_request (serialNumber : string) (egvs : list Egv)
  (req : request) : Prop :=
  match req with
  | AuthenticatePublisherAccount _ _ _ => True
  | LoginPublisherAccountById _ _ _ => True
  | PostReceiverEgvRecords _ sn batch _ => sn = serialNumber /\ batch = egvs
  | _ => False
  end.



(** The dedup key of a reading. *)
Definition key (reading : Reading) : num := extractTimestamp (WT reading).

(** The client once both tokens are stored. *)
Definition logged_in (aid sid : string) (c : Client) : Client :=
  mkClient (username c) (password c) (region c) (baseUrl c) (applicationId c)
           (Some sid) (Some aid).

(** A reply that signals session expiry by its code. *)
Definition expiry_reply (r : response) : Prop :=
  status r = 500 /\ Code_is (json r) "SessionIdNotFound" = true.

(** What a successful read yields for a reply: its array, or nothing when
    the body is no array. *)
Definition readings_of (r : response) : list Reading :=
  match json r with
  | Some (JArray readings) => readings
  | _ => []
  end.

(** A reply account-authenticate or login succeeds with, and the token it
    carries. *)
Definition token (r : response) : string := strip_quotes (text r).

Definition token_reply (r : response) : Prop :=
  ok r = true /\ token r <> zero_uuid.

(** The key derivation in the words of the specification: the first run
    of decimal digits, parsed as an integer; 0 when there is no digit. *)
Fixpoint has_digit (s : string) : bool :=
  match s with
  | EmptyString => false
  | String c s' => is_digit c || has_digit s'
  end.

Fixpoint skip_non_digits (s : string) : string :=
  match s with
  | EmptyString => EmptyString
  | String c s' => if is_digit c then s else skip_non_digits s'
  end.

Definition first_digit_run (s : string) : string :=
  digits_prefix (skip_non_digits s).

Definition spec_key (s : string) : num :=
  if has_digit s then parseInt (first_digit_run s) else Finite 0.

(** The read a cycle of [s] starts with, and the readings it finds new. *)
Definition source_read (s : Syncer) (src : Net) : outcome (list Reading) * Client * Net :=
  readGlucoseValues (minutes s) (maxCount s) (sourceClient s) src.

Definition fresh (s : Syncer) (readings : list Reading) : list Reading :=
  List.filter (is_new (syncedTimestamps s)) readings.

(** The write a cycle of [s] performs once it has read [readings]. *)
Definition dest_write (s : Syncer) (readings : list Reading) (dst : Net)
  : outcome bool * Client * Net :=
  writeGlucoseValues (serialNumber s) (map to_egv (fresh s readings))
    (destClient s) dst.

(** The number of readings whose key is in the ledger. *)
Definition count_known (ledger : gset num) (readings : list Reading) : nat :=
  length (List.filter (fun r => bool_decide (key r ∈ ledger)) readings).

(** Along a run of the daemon, every tick finds no cycle in flight. *)
Fixpoint ticks_when_idle (d : Daemon) (es : list event) : bool :=
  match es with
  | [] => true
  | e :: es' =>
      match e, inFlight d with
      | Tick, S _ => false
      | _, _ =>
          match daemon_step d e with
          | None => true
          | Some d' => ticks_when_idle d' es'
          end
      end
  end.

End Props.

(** ** Concrete data for the examples *)

Module Scenario.

Import JS DexcomClient Dex2ComSyncer.

Definition quoted (s : string) : string :=
  String dquote (s +:+ String dquote "").

(** A 200 reply whose body is the quoted token [t]. *)
Definition token_ok (t : string) : reply :=
  Response (mkResponse 200 (quoted t) (Some (JOther None None))).

(** A 200 reply whose body is the array [readings]. *)
Definition readings_ok (readings : list Reading) : reply :=
  Response (mkResponse 200 "[...]" (Some (JArray readings))).

(** The 500 reply of an expired session. *)
Definition session_expired : response :=
  mkResponse 500 "{...}"
    (Some (JOther (Some "SessionIdNotFound") (Some "Session not found"))).

(** A 500 reply with another code and the message [m]. *)
Definition server_error (m : string) : response :=
  mkResponse 500 "{...}" (Some (JOther (Some "InternalError") (Some m))).

Definition reading_at (value : Z) (wt : string) : Reading :=
  mkReading value "Flat" "/Date(1)/" "/Date(1)/" wt.

Definition cfg : Config :=
  mkConfig (mkAccount "alice" "pw-a" "us") (mkAccount "bob" "pw-b" "ous") 5 12 None.

Definition syncer0 : Syncer := Dex2ComSyncer.constructor cfg.

(** Both clients logged in, nothing pending on either side. *)
Definition source0 : Client :=
  Props.logged_in "src-account" "src-session" (sourceClient syncer0).

Definition dest0 : Client :=
  Props.logged_in "dst-account" "dst-session" (destClient syncer0).

Definition syncer_with (ledger : gset num) : Syncer :=
  mkSyncer cfg source0 dest0 ledger (serialNumber syncer0).

Definition net (replies : list reply) : Net := mkNet replies [] (-120).

(** The five readings of the specification's scenario. *)
Definition five : list Reading :=
  [ reading_at 101 "/Date(100)/"; reading_at 102 "/Date(200)/";
    reading_at 103 "/Date(300)/"; reading_at 104 "/Date(400)/";
    reading_at 105 "/Date(500)/" ].

Definition upload_ok : reply := Response (mkResponse 200 "" None).

End Scenario.

(** ** The connection test ([testConnections]) *)

Module Commands.

Import JS DexcomClient Dex2ComSyncer.

(** One side of the object [testConnections] returns.  [latestValue] is
    only ever set for the source, to [reading?.Value]. *)
Record SideResult : Type := mkSide {
  side_success : bool;
  side_error : option string;
  latestValue : option Z
}.

Record ConnectionResults : Type := mkResults {
  results_source : SideResult;
  results_dest : SideResult
}.

(** The body of the first [try]: authenticate, then fetch the latest
    reading. *)
Definition test_source : M (option Z) :=
  authenticate >>
  let* reading := getLatestReading in
  ret (option_map Value reading).

(** The body of the second [try]. *)
Definition test_dest : M unit := authenticate >> ret tt.

(** [testConnections]: the two [try] blocks in sequence, each with its own
    [catch].  The result is [None] when one of the awaited calls never
    settles. *)
Definition testConnections (s : Syncer) (src dst : Net)
  : option ConnectionResults * Syncer * Net * Net :=
  match test_source (sourceClient s) src with
  | (Pending, c, src') => (None, with_sourceClient c s, src', dst)
  | (source_outcome, c, src') =>
      let source_side :=
        match source_outcome with
        | Ret v => mkSide true None v
        | Throw e => mkSide false (Some e) None
        | Pending => mkSide false None None
        end in
      let s := with_sourceClient c s in
      match test_dest (destClient s) dst with
      | (Pending, d, dst') => (None, with_destClient d s, src', dst')
      | (Ret _, d, dst') =>
          (Some (mkResults source_side (mkSide true None None)),
           with_destClient d s, src', dst')
      | (Throw e, d, dst') =>
          (Some (mkResults source_side (mkSide false (Some e) None)),
           with_destClient d s, src', dst')
      end
  end.

End Commands.

(** ** Further vocabulary *)

Module Invariants.

Import JS DexcomClient Dex2ComSyncer Props.

(** A 500 reply that a data method treats as a session error, by its
    code or by its message; [fallback] is what the method takes for the
    message when the body has none. *)
Definition session_error_reply (fallback : string) (r : response) : Prop :=
  status r = 500
  /\ (Code_is (json r) "SessionIdNotFound" = true
      \/ isSessionError (Message_or (json r) fallback) = true).

(** A computation that does not settle has used up every reply. *)
Definition pending_only_when_exhausted {B} (m : M B) : Prop :=
  forall c n c' n', m c n = (Pending, c', n') -> pending n' = [].

(** A request of [authenticate]. *)
Definition authentication_request (req : request) : Prop :=
  match req with
  | AuthenticatePublisherAccount _ _ _ => True
  | LoginPublisherAccountById _ _ _ => True
  | _ => False
  end.

(** The [sessionId] a data request carries is a string, not [null]; the
    empty string, which the code takes for no session, is not excluded. *)
Definition sessionId_not_null (req : request) : Prop :=
  match req with
  | ReadPublisherLatestGlucoseValues sid _ _ => sid <> None
  | PostReceiverEgvRecords sid _ _ _ => sid <> None
  | ReplacePublisherAccountMonitoredReceiver sid _ => sid <> None
  | _ => True
  end.

(** The remote encoding of an epoch-millisecond timestamp, with an
    optional time-zone suffix as [DT] carries it. *)
Definition Date_encoding (ms : Z) (suffix : string) : string :=
  "/Date(" +:+ show_Z ms +:+ suffix +:+ ")/".

(** Every character of a string satisfies [p]. *)
Fixpoint all_chars (p : ascii -> bool) (s : string) : bool :=
  match s with
  | EmptyString => true
  | String c s' => p c && all_chars p s'
  end.

(** The number of times a reading occurs in a list. *)
Definition Reading_eqb (a b : Reading) : bool :=
  (Value a =? Value b) && String.eqb (Trend a) (Trend b)
  && String.eqb (ST a) (ST b) && String.eqb (DT a) (DT b)
  && String.eqb (WT a) (WT b).

Definition occurrences (r : Reading) (l : list Reading) : nat :=
  length (List.filter (Reading_eqb r) l).

(** A character of a printed integer: a decimal digit or the sign. *)
Definition sign_or_digit (c : ascii) : bool := is_digit c || Ascii.eqb c "-".

(** A request of [readGlucoseValues minutes maxCount]: a request of
    [authenticate], or a read of that very window. *)
Definition read_request (minutes maxCount : Z) (req : request) : Prop :=
  match req with
  | AuthenticatePublisherAccount _ _ _ => True
  | LoginPublisherAccountById _ _ _ => True
  | ReadPublisherLatestGlucoseValues _ m k => m = minutes /\ k = maxCount
  | _ => False
  end.

(** Every request a computation sends from a client that satisfies [Pre]
    satisfies [P]. *)
Definition sends_from {B} (Pre : Client -> Prop) (P : request -> Prop)
  (m : M B) : Prop :=
  forall c n, Pre c ->
    exists l, sent (m c n).2 = (sent n ++ l)%list /\ Forall P l.

(** When a computation returns, the client satisfies [Q]. *)
Definition returns_with {B} (Q : Client -> Prop) (m : M B) : Prop :=
  forall c n b c' n', m c n = (Ret b, c', n') -> Q c'.

(** The client's [sessionId] is a string, not [null]; it may be empty. *)
Definition session_not_null (c : Client) : Prop := sessionId c <> None.

End Invariants.

(** * Properties *)

Import JS DexcomClient Dex2ComSyncer Props.

(** ** Replies are consumed, never produced *)

Section Pending.

Lemma no_growth_ret {B} (b : B) : no_growth (ret b).
Proof. intros c n. simpl. lia. Qed.

Lemma no_growth_throw {B} e : no_growth (@throw B e).
Proof. intros c n. simpl. lia. Qed.

Lemma no_growth_this : no_growth this.
Proof. intros c n. simpl. lia. Qed.

Lemma no_growth_assign f : no_growth (assign f).
Proof. intros c n. simpl. lia. Qed.

Lemma no_growth_getTimezoneOffset : no_growth getTimezoneOffset.
Proof. intros c n. simpl. lia. Qed.

Lemma no_growth_makeRequest req : no_growth (makeRequest req).
Proof.
  intros c n. unfold makeRequest.
  destruct (pending n) as [|[r|e] rest]; simpl; lia.
Qed.

Lemma no_growth_bind {B C} (m : M B) (k : B -> M C) :
  no_growth m -> (forall b, no_growth (k b)) -> no_growth (bind m k).
Proof.
  intros Hm Hk c n. unfold bind. specialize (Hm c n).
  destruct (m c n) as [[[b|e|] c'] n']; simpl in *; try lia.
  specialize (Hk b c' n'). lia.
Qed.

Lemma no_growth_try_catch {B} (m : M B) (h : string -> M B) :
  no_growth m -> (forall e, no_growth (h e)) -> no_growth (try_catch m h).
Proof.
  intros Hm Hh c n. unfold try_catch. specialize (Hm c n).
  destruct (m c n) as [[[b|e|] c'] n']; simpl in *; try lia.
  specialize (Hh e c' n'). lia.
Qed.

Lemma no_growth_if {B} (b : bool) (m1 m2 : M B) :
  no_growth m1 -> no_growth m2 -> no_growth (if b then m1 else m2).
Proof. destruct b; auto. Qed.

End Pending.

Ltac no_growth_tac :=
  repeat first
    [ progress intros
    | apply no_growth_bind | apply no_growth_try_catch | apply no_growth_if
    | apply no_growth_ret | apply no_growth_throw | apply no_growth_this
    | apply no_growth_assign | apply no_growth_getTimezoneOffset
    | apply no_growth_makeRequest ].

Lemma no_growth_authenticate : no_growth authenticate.
Proof. unfold authenticate. no_growth_tac. Qed.

Lemma no_growth_require_session : no_growth require_session.
Proof. unfold require_session. no_growth_tac. Qed.

Lemma consumes_makeRequest req : consumes (makeRequest req).
Proof.
  intros c n. unfold makeRequest.
  destruct (pending n) as [|[r|e] rest]; simpl; split; intros; try done; lia.
Qed.

Lemma consumes_bind {B C} (m : M B) (k : B -> M C) :
  consumes m -> (forall b, no_growth (k b)) -> consumes (bind m k).
Proof.
  intros Hm Hk c n. unfold bind. destruct (Hm c n) as [H0 H1].
  destruct (m c n) as [[[b|e|] c'] n']; simpl in *; split; intros Hp;
    try (specialize (H0 Hp); discriminate); try (specialize (H1 Hp); lia);
    try done.
  specialize (H1 Hp). specialize (Hk b c' n'). lia.
Qed.

Lemma consumes_try_catch {B} (m : M B) (h : string -> M B) :
  consumes m -> (forall e, no_growth (h e)) -> consumes (try_catch m h).
Proof.
  intros Hm Hh c n. unfold try_catch. destruct (Hm c n) as [H0 H1].
  destruct (m c n) as [[[b|e|] c'] n']; simpl in *; split; intros Hp;
    try (specialize (H0 Hp); discriminate); try (specialize (H1 Hp); lia);
    try done.
  specialize (H1 Hp). specialize (Hh e c' n'). lia.
Qed.

Lemma consumes_this {B} (k : Client -> M B) :
  (forall c, consumes (k c)) -> consumes (bind this k).
Proof. intros Hk c n. exact (Hk c c n). Qed.

Lemma consumes_getTimezoneOffset {B} (k : Z -> M B) :
  (forall z, consumes (k z)) -> consumes (bind getTimezoneOffset k).
Proof. intros Hk c n. exact (Hk (timezoneOffset n) c n). Qed.

Lemma consumes_read_attempt minutes maxCount :
  consumes (read_attempt minutes maxCount).
Proof.
  unfold read_attempt. apply consumes_try_catch.
  - apply consumes_this. intros c. apply consumes_bind.
    + apply consumes_makeRequest.
    + intros r. destruct (json r) as [[]|]; no_growth_tac.
  - no_growth_tac.
Qed.

Lemma consumes_write_attempt sn egvs : consumes (write_attempt sn egvs).
Proof.
  unfold write_attempt. apply consumes_try_catch.
  - apply consumes_this. intros c. apply consumes_getTimezoneOffset. intros tz.
    apply consumes_bind; [apply consumes_makeRequest | no_growth_tac].
  - no_growth_tac.
Qed.

(** ** The bound on the depth of the self-calls is never reached *)

Lemma readGlucoseValues_fuel_enough minutes maxCount :
  forall f1 f2 c n,
    (length (pending n) < f1)%nat -> (length (pending n) < f2)%nat ->
    readGlucoseValues_fuel f1 minutes maxCount c n
    = readGlucoseValues_fuel f2 minutes maxCount c n.
Proof.
  induction f1 as [|f1 IH]; intros [|f2] c n H1 H2; try lia.
  simpl. unfold bind at 1 3.
  pose proof (no_growth_require_session c n) as Hr.
  destruct (require_session c n) as [[[[]|e|] c1] n1]; simpl in *; try done.
  unfold bind.
  destruct (consumes_read_attempt minutes maxCount c1 n1) as [H0 Hlt].
  destruct (read_attempt minutes maxCount c1 n1) as [[[[rs|]|e|] c2] n2];
    simpl in *; try done.
  destruct (pending n1) as [|r rest] eqn:Hp;
    [specialize (H0 eq_refl); discriminate|].
  specialize (Hlt ltac:(done)). simpl in *. apply IH; lia.
Qed.

Lemma writeGlucoseValues_fuel_enough sn egvs :
  forall f1 f2 c n,
    (length (pending n) < f1)%nat -> (length (pending n) < f2)%nat ->
    writeGlucoseValues_fuel f1 sn egvs c n
    = writeGlucoseValues_fuel f2 sn egvs c n.
Proof.
  induction f1 as [|f1 IH]; intros [|f2] c n H1 H2; try lia.
  simpl. unfold bind at 1 3.
  pose proof (no_growth_require_session c n) as Hr.
  destruct (require_session c n) as [[[[]|e|] c1] n1]; simpl in *; try done.
  unfold bind.
  destruct (consumes_write_attempt sn egvs c1 n1) as [H0 Hlt].
  destruct (write_attempt sn egvs c1 n1) as [[[[b|]|e|] c2] n2];
    simpl in *; try done.
  destruct (pending n1) as [|r rest] eqn:Hp;
    [specialize (H0 eq_refl); discriminate|].
  specialize (Hlt ltac:(done)). simpl in *. apply IH; lia.
Qed.

(** The methods satisfy the equations of their source text: the self-call
    is the method itself. *)
Lemma readGlucoseValues_unfold minutes maxCount c n :
  readGlucoseValues minutes maxCount c n
  = (require_session >>
     let* a := read_attempt minutes maxCount in
     match a with
     | Done readings => ret readings
     | Again => readGlucoseValues minutes maxCount
     end) c n.
Proof.
  unfold readGlucoseValues at 1. simpl. unfold bind.
  pose proof (no_growth_require_session c n) as Hr.
  destruct (require_session c n) as [[[[]|e|] c1] n1]; simpl in *; try done.
  destruct (consumes_read_attempt minutes maxCount c1 n1) as [H0 Hlt].
  destruct (read_attempt minutes maxCount c1 n1) as [[[[rs|]|e|] c2] n2];
    simpl in *; try done.
  destruct (pending n1) as [|r rest] eqn:Hp;
    [specialize (H0 eq_refl); discriminate|].
  specialize (Hlt ltac:(done)). simpl in *.
  unfold readGlucoseValues. apply readGlucoseValues_fuel_enough; lia.
Qed.

Lemma writeGlucoseValues_unfold sn egvs c n :
  writeGlucoseValues sn egvs c n
  = (require_session >>
     let* a := write_attempt sn egvs in
     match a with
     | Done b => ret b
     | Again => writeGlucoseValues sn egvs
     end) c n.
Proof.
  unfold writeGlucoseValues at 1. simpl. unfold bind.
  pose proof (no_growth_require_session c n) as Hr.
  destruct (require_session c n) as [[[[]|e|] c1] n1]; simpl in *; try done.
  destruct (consumes_write_attempt sn egvs c1 n1) as [H0 Hlt].
  destruct (write_attempt sn egvs c1 n1) as [[[[b|]|e|] c2] n2];
    simpl in *; try done.
  destruct (pending n1) as [|r rest] eqn:Hp;
    [specialize (H0 eq_refl); discriminate|].
  specialize (Hlt ltac:(done)). simpl in *.
  unfold writeGlucoseValues. apply writeGlucoseValues_fuel_enough; lia.
Qed.

(** ** [authenticate] *)

Lemma token_eqb r : token r <> zero_uuid -> String.eqb (strip_quotes (text r)) zero_uuid = false.
Proof. intros H. apply String.eqb_neq. exact H. Qed.

Lemma authenticate_fresh c n ra rl rest :
  truthy (accountId c) = false ->
  pending n = Response ra :: Response rl :: rest ->
  token_reply ra -> token_reply rl ->
  authenticate c n
  = (Ret (Some (token rl)), logged_in (token ra) (token rl) c,
     mkNet rest
       (sent n ++ [AuthenticatePublisherAccount (username c) (password c) (applicationId c);
                   LoginPublisherAccountById (Some (token ra)) (password c) (applicationId c)])
       (timezoneOffset n)).
Proof.
  intros Hacc Hp [Hoka Ha] [Hokl Hl].
  unfold authenticate, try_catch, bind, this, makeRequest, assign, throw, ret.
  rewrite Hacc. simpl. rewrite Hp. simpl. rewrite Hoka. simpl.
  rewrite (token_eqb _ Ha). simpl. rewrite Hokl. simpl.
  rewrite (token_eqb _ Hl). unfold logged_in. simpl.
  rewrite <- app_assoc. reflexivity.
Qed.

Lemma authenticate_cached c n rl rest :
  truthy (accountId c) = true ->
  pending n = Response rl :: rest ->
  token_reply rl ->
  authenticate c n
  = (Ret (Some (token rl)), set_sessionId (Some (token rl)) c,
     mkNet rest
       (sent n ++ [LoginPublisherAccountById (accountId c) (password c) (applicationId c)])
       (timezoneOffset n)).
Proof.
  intros Hacc Hp [Hokl Hl].
  unfold authenticate, try_catch, bind, this, makeRequest, assign, throw, ret.
  rewrite Hacc. simpl. rewrite Hp. simpl. rewrite Hokl. simpl.
  rewrite (token_eqb _ Hl). reflexivity.
Qed.

Lemma authenticate_zero_uuid c n ra rest :
  truthy (accountId c) = false ->
  pending n = Response ra :: rest ->
  ok ra = true -> token ra = zero_uuid ->
  authenticate c n
  = (Throw "Authentication error: Invalid credentials",
     set_accountId (Some zero_uuid) c,
     mkNet rest
       (sent n ++ [AuthenticatePublisherAccount (username c) (password c) (applicationId c)])
       (timezoneOffset n)).
Proof.
  intros Hacc Hp Hok Hz. unfold token in Hz.
  unfold authenticate, try_catch, bind, this, makeRequest, assign, throw, ret.
  rewrite Hacc. simpl. rewrite Hp. simpl. rewrite Hok. simpl. rewrite Hz. reflexivity.
Qed.

(** ** One expiry, one re-authentication, one retry *)

Lemma require_session_held c n :
  truthy (sessionId c) = true -> require_session c n = (Ret tt, c, n).
Proof. intros H. unfold require_session, bind, this. rewrite H. reflexivity. Qed.

Lemma read_attempt_expiry minutes maxCount c n r ra rl rest :
  pending n = Response r :: Response ra :: Response rl :: rest ->
  expiry_reply r -> token_reply ra -> token_reply rl ->
  read_attempt minutes maxCount c n
  = (Ret Again, logged_in (token ra) (token rl) c,
     mkNet rest
       (sent n ++ [ReadPublisherLatestGlucoseValues (sessionId c) minutes maxCount;
                   AuthenticatePublisherAccount (username c) (password c) (applicationId c);
                   LoginPublisherAccountById (Some (token ra)) (password c) (applicationId c)])
       (timezoneOffset n)).
Proof.
  intros Hp [Hs Hc] Ha Hl.
  unfold read_attempt, try_catch at 1, bind at 1 2, this at 1, makeRequest at 1.
  rewrite Hp. simpl. rewrite Hs. simpl. rewrite Hc. simpl.
  unfold reauthenticate_and_retry, clear_session, bind, assign. simpl.
  erewrite authenticate_fresh; simpl; eauto.
  unfold ret, logged_in. simpl. rewrite <- app_assoc. reflexivity.
Qed.

Lemma write_attempt_expiry sn egvs c n r ra rl rest :
  pending n = Response r :: Response ra :: Response rl :: rest ->
  expiry_reply r -> token_reply ra -> token_reply rl ->
  write_attempt sn egvs c n
  = (Ret Again, logged_in (token ra) (token rl) c,
     mkNet rest
       (sent n ++ [PostReceiverEgvRecords (sessionId c) sn egvs (- timezoneOffset n);
                   AuthenticatePublisherAccount (username c) (password c) (applicationId c);
                   LoginPublisherAccountById (Some (token ra)) (password c) (applicationId c)])
       (timezoneOffset n)).
Proof.
  intros Hp [Hs Hc] Ha Hl.
  unfold write_attempt, try_catch at 1, bind at 1 2 3, this at 1,
    getTimezoneOffset, makeRequest at 1.
  rewrite Hp. simpl. rewrite Hs. simpl. rewrite Hc. simpl.
  unfold reauthenticate_and_retry, clear_session, bind, assign. simpl.
  erewrite authenticate_fresh; simpl; eauto.
  unfold ret, logged_in. simpl. rewrite <- app_assoc. reflexivity.
Qed.



(** ** A request that is answered with success *)

Lemma ok_not_500 r : ok r = true -> (status r =? 500) = false.
Proof. unfold ok. intros H. apply andb_prop in H as [H1 H2]. lia. Qed.

Lemma readGlucoseValues_array minutes maxCount c n r rest readings :
  truthy (sessionId c) = true ->
  pending n = Response r :: rest ->
  ok r = true -> json r = Some (JArray readings) ->
  readGlucoseValues minutes maxCount c n
  = (Ret readings, c,
     mkNet rest
       (sent n ++ [ReadPublisherLatestGlucoseValues (sessionId c) minutes maxCount])
       (timezoneOffset n)).
Proof.
  intros Hs Hp Hok Hj. rewrite readGlucoseValues_unfold. unfold bind at 1.
  rewrite (require_session_held _ _ Hs).
  unfold bind at 1, read_attempt, try_catch, bind, this, makeRequest.
  rewrite Hp. simpl. rewrite (ok_not_500 _ Hok), Hok, Hj. reflexivity.
Qed.

Lemma writeGlucoseValues_accepted sn egvs c n r rest :
  truthy (sessionId c) = true ->
  pending n = Response r :: rest ->
  ok r = true ->
  writeGlucoseValues sn egvs c n
  = (Ret true, c,
     mkNet rest
       (sent n ++ [PostReceiverEgvRecords (sessionId c) sn egvs (- timezoneOffset n)])
       (timezoneOffset n)).
Proof.
  intros Hs Hp Hok. rewrite writeGlucoseValues_unfold. unfold bind at 1.
  rewrite (require_session_held _ _ Hs).
  unfold bind at 1, write_attempt, try_catch, bind, this, getTimezoneOffset, makeRequest.
  rewrite Hp. simpl. rewrite (ok_not_500 _ Hok), Hok. reflexivity.
Qed.

(** ** A server error that is no session expiry *)

Lemma includes_cons a s sub :
  includes (String a s) sub
  = if String.prefix sub (String a s) then true else includes s sub.
Proof. reflexivity. Qed.

Lemma includes_append p s sub :
  includes s sub = true -> includes (p +:+ s) sub = true.
Proof.
  induction p as [|a p IH]; intros H; [exact H|].
  change (String a p +:+ s) with (String a (p +:+ s)).
  rewrite includes_cons.
  destruct (String.prefix sub (String a (p +:+ s))); [reflexivity | auto].
Qed.

Lemma prefix_refl s : String.prefix s s = true.
Proof. induction s as [|a s IH]; simpl; [reflexivity|]. destruct (Ascii.ascii_dec a a); [exact IH | done]. Qed.

Lemma includes_refl s : includes s s = true.
Proof. destruct s; [reflexivity|]. rewrite includes_cons, prefix_refl. reflexivity. Qed.

Lemma isSessionError_server_error m :
  isSessionError ("Server error: " +:+ m) = isSessionError m.
Proof. reflexivity. Qed.

Lemma writeGlucoseValues_server_error sn egvs c n c1 n1 r rest :
  require_session c n = (Ret tt, c1, n1) ->
  pending n1 = Response r :: rest ->
  status r = 500 ->
  Code_is (json r) "SessionIdNotFound" = false ->
  isSessionError (Message_or (json r) (text r)) = false ->
  writeGlucoseValues sn egvs c n
  = (Throw ("Server error: " +:+ Message_or (json r) (text r)), c1,
     mkNet rest
       (sent n1 ++ [PostReceiverEgvRecords (sessionId c1) sn egvs (- timezoneOffset n1)])
       (timezoneOffset n1)).
Proof.
  intros Hs Hp H500 Hc Hm. rewrite writeGlucoseValues_unfold. unfold bind at 1.
  rewrite Hs.
  pose proof Hm as Hm'. unfold isSessionError in Hm'.
  apply orb_false_elim in Hm' as [Hm' H3]. apply orb_false_elim in Hm' as [_ H2].
  unfold bind at 1, write_attempt, try_catch, bind, this, getTimezoneOffset, makeRequest.
  rewrite Hp. simpl. rewrite H500. simpl. rewrite Hc, H2, H3. simpl.
  unfold throw. rewrite isSessionError_server_error, Hm. reflexivity.
Qed.

(** ** What a method sends *)

Section Sends.

Variable P : request -> Prop.

Lemma sends_only_ret {B} (b : B) : sends_only P (ret b).
Proof. intros c n. exists []. simpl. rewrite app_nil_r. auto. Qed.

Lemma sends_only_throw {B} e : sends_only P (@throw B e).
Proof. intros c n. exists []. simpl. rewrite app_nil_r. auto. Qed.

Lemma sends_only_this : sends_only P this.
Proof. intros c n. exists []. simpl. rewrite app_nil_r. auto. Qed.

Lemma sends_only_assign f : sends_only P (assign f).
Proof. intros c n. exists []. simpl. rewrite app_nil_r. auto. Qed.

Lemma sends_only_getTimezoneOffset : sends_only P getTimezoneOffset.
Proof. intros c n. exists []. simpl. rewrite app_nil_r. auto. Qed.

Lemma sends_only_makeRequest req : P req -> sends_only P (makeRequest req).
Proof.
  intros H c n. exists [req]. unfold makeRequest.
  destruct (pending n) as [|[r|e] rest]; simpl; auto.
Qed.

Lemma sends_only_bind {B C} (m : M B) (k : B -> M C) :
  sends_only P m -> (forall b, sends_only P (k b)) -> sends_only P (bind m k).
Proof.
  intros Hm Hk c n. unfold bind. destruct (Hm c n) as (l & Hl & HP).
  destruct (m c n) as [[[b|e|] c'] n']; simpl in *; eauto.
  destruct (Hk b c' n') as (l' & Hl' & HP').
  exists (l ++ l')%list. rewrite Hl', Hl, app_assoc. split; [reflexivity|].
  apply Forall_app; auto.
Qed.

Lemma sends_only_try_catch {B} (m : M B) (h : string -> M B) :
  sends_only P m -> (forall e, sends_only P (h e)) -> sends_only P (try_catch m h).
Proof.
  intros Hm Hh c n. unfold try_catch. destruct (Hm c n) as (l & Hl & HP).
  destruct (m c n) as [[[b|e|] c'] n']; simpl in *; eauto.
  destruct (Hh e c' n') as (l' & Hl' & HP').
  exists (l ++ l')%list. rewrite Hl', Hl, app_assoc. split; [reflexivity|].
  apply Forall_app; auto.
Qed.

Lemma sends_only_if {B} (b : bool) (m1 m2 : M B) :
  sends_only P m1 -> sends_only P m2 -> sends_only P (if b then m1 else m2).
Proof. destruct b; auto. Qed.

End Sends.

Ltac sends_only_tac :=
  repeat first
    [ progress intros
    | apply sends_only_bind | apply sends_only_try_catch | apply sends_only_if
    | apply sends_only_ret | apply sends_only_throw | apply sends_only_this
    | apply sends_only_assign | apply sends_only_getTimezoneOffset
    | apply sends_only_makeRequest; simpl; auto ].

Lemma sends_only_write_attempt sn egvs :
  sends_only (write_request sn egvs) (write_attempt sn egvs).
Proof. unfold write_attempt. sends_only_tac. Qed.

Lemma sends_only_require_session sn egvs :
  sends_only (write_request sn egvs) require_session.
Proof. unfold require_session. sends_only_tac. Qed.

Lemma sends_only_writeGlucoseValues_fuel sn egvs fuel :
  sends_only (write_request sn egvs) (writeGlucoseValues_fuel fuel sn egvs).
Proof.
  induction fuel as [|fuel IH]; simpl.
  - intros c n. exists []. simpl. rewrite app_nil_r. auto.
  - apply sends_only_bind; [apply sends_only_require_session|]. intros _.
    apply sends_only_bind; [apply sends_only_write_attempt|].
    intros [b|]; [apply sends_only_ret | exact IH].
Qed.

Lemma sends_only_writeGlucoseValues sn egvs :
  sends_only (write_request sn egvs) (writeGlucoseValues sn egvs).
Proof. intros c n. apply sends_only_writeGlucoseValues_fuel. Qed.

(** ** What a method rejects with *)

Section Throws.

Variable P : string -> Prop.





End Throws.










(** ** The ledger *)

Lemma elem_of_markSynced (k : num) newReadings (ledger : gset num) :
  k ∈ markSynced newReadings ledger
  <-> k ∈ ledger \/ exists r, In r newReadings /\ key r = k.
Proof.
  unfold markSynced. revert ledger.
  induction newReadings as [|r rs IH]; intros ledger; simpl.
  - split; [auto | intros [H | (r & [] & _)]; exact H].
  - rewrite IH. rewrite elem_of_union, elem_of_singleton. unfold key. split.
    + intros [[-> | H] | (r' & Hin & Hk)]; eauto.
    + intros [H | (r' & [<- | Hin] & Hk)]; eauto.
Qed.

Lemma markSynced_union newReadings (ledger : gset num) :
  markSynced newReadings ledger = ledger ∪ list_to_set (map key newReadings).
Proof.
  apply set_eq. intros k. rewrite elem_of_markSynced, elem_of_union, elem_of_list_to_set.
  rewrite list_elem_of_In, in_map_iff. split.
  - intros [H | (r & Hin & Hk)]; eauto.
  - intros [H | (r & Hk & Hin)]; eauto.
Qed.

Lemma elem_of_cleanupOldTimestamps (k : num) now (ledger : gset num) :
  k ∈ cleanupOldTimestamps now ledger
  <-> k ∈ ledger /\ num_gtb k (now - 86400000) = true.
Proof.
  unfold cleanupOldTimestamps. rewrite elem_of_list_to_set, list_elem_of_In.
  rewrite filter_In, <- list_elem_of_In, elem_of_elements.
  change (24 * 60 * 60 * 1000) with 86400000. reflexivity.
Qed.

Lemma is_new_false ledger r : is_new ledger r = false <-> key r ∈ ledger.
Proof.
  unfold is_new, key. rewrite negb_false_iff, bool_decide_eq_true. reflexivity.
Qed.

Lemma is_new_true ledger r : is_new ledger r = true <-> key r ∉ ledger.
Proof.
  unfold is_new, key. rewrite negb_true_iff, bool_decide_eq_false. reflexivity.
Qed.

(** The readings split into those the ledger knows and the new ones. *)
Lemma skipped_count ledger readings :
  (length readings - length (List.filter (is_new ledger) readings))%nat
  = count_known ledger readings.
Proof.
  unfold count_known.
  induction readings as [|r rs IH]; simpl; [reflexivity|].
  unfold is_new at 1. fold (key r).
  destruct (bool_decide (key r ∈ ledger)); simpl.
  - rewrite <- IH.
    pose proof (List.filter_length_le (is_new ledger) rs). lia.
  - exact IH.
Qed.

Lemma filter_nil_known ledger readings :
  List.filter (is_new ledger) readings = [] <->
  forall r, In r readings -> key r ∈ ledger.
Proof.
  induction readings as [|r rs IH]; simpl.
  - split; [intros _ r [] | reflexivity].
  - destruct (is_new ledger r) eqn:Hr.
    + split; [discriminate|]. intros H. apply is_new_true in Hr.
      exfalso. apply Hr, H. left. reflexivity.
    + rewrite IH. apply is_new_false in Hr. split.
      * intros H r' [<- | Hin]; auto.
      * intros H r' Hin. apply H. right. exact Hin.
Qed.

(** ** The four ways a cycle that has read its readings can end *)

Lemma length_zero_nil {A} (l : list A) : (length l =? 0)%nat = true <-> l = [].
Proof. destruct l; simpl; split; intros H; try done. Qed.

Lemma sync_read_throws now s src dst e c src1 :
  source_read s src = (Throw e, c, src1) ->
  sync now s src dst
  = (Some (mkResult false 0 0 0 [e]), with_sourceClient c s, src1, dst).
Proof. unfold source_read, sync. intros ->. reflexivity. Qed.

Lemma sync_read_pending now s src dst c src1 :
  source_read s src = (Pending, c, src1) ->
  sync now s src dst = (None, with_sourceClient c s, src1, dst).
Proof. unfold source_read, sync. intros ->. reflexivity. Qed.

Lemma sync_nothing_read now s src dst c src1 :
  source_read s src = (Ret [], c, src1) ->
  sync now s src dst
  = (Some (mkResult true 0 0 0 []), with_sourceClient c s, src1, dst).
Proof. unfold source_read, sync. intros ->. reflexivity. Qed.

Lemma sync_nothing_new now s src dst readings c src1 :
  source_read s src = (Ret readings, c, src1) ->
  fresh s readings = [] ->
  sync now s src dst
  = (Some (mkResult true (length readings) 0 (count_known (syncedTimestamps s) readings) []),
     with_sourceClient c s, src1, dst).
Proof.
  unfold source_read, sync, fresh. intros -> Hf. cbv zeta.
  change (syncedTimestamps (with_sourceClient c s)) with (syncedTimestamps s).
  destruct (length readings =? 0)%nat eqn:Hz.
  { apply length_zero_nil in Hz. subst. reflexivity. }
  rewrite skipped_count, Hf. reflexivity.
Qed.

Lemma sync_after_read now s src dst readings c src1 :
  source_read s src = (Ret readings, c, src1) ->
  fresh s readings <> [] ->
  sync now s src dst
  = match dest_write s readings dst with
    | (Pending, d, dst1) =>
        (None, with_destClient d (with_sourceClient c s), src1, dst1)
    | (Throw e, d, dst1) =>
        (Some (mkResult false (length readings) 0
                 (count_known (syncedTimestamps s) readings) [e]),
         with_destClient d (with_sourceClient c s), src1, dst1)
    | (Ret _, d, dst1) =>
        (Some (mkResult true (length readings) (length (fresh s readings))
                 (count_known (syncedTimestamps s) readings) []),
         with_syncedTimestamps
           (cleanupOldTimestamps now
              (syncedTimestamps s ∪ list_to_set (map key (fresh s readings))))
           (with_destClient d (with_sourceClient c s)),
         src1, dst1)
    end.
Proof.
  unfold source_read, sync, dest_write, fresh. intros -> Hf. cbv zeta.
  change (syncedTimestamps (with_sourceClient c s)) with (syncedTimestamps s).
  change (serialNumber (with_sourceClient c s)) with (serialNumber s).
  change (destClient (with_sourceClient c s)) with (destClient s).
  destruct (length readings =? 0)%nat eqn:Hz.
  { apply length_zero_nil in Hz. subst. simpl in Hf. done. }
  destruct (length (List.filter (is_new (syncedTimestamps s)) readings) =? 0)%nat eqn:Hz'.
  { apply length_zero_nil in Hz'. done. }
  rewrite skipped_count, markSynced_union, length_map. reflexivity.
Qed.

(** * The claims *)

(** C9 -- Empty-source trivial success.  In every cycle whose source read
    returns zero readings, [sync] returns exactly
    [{success: true, readCount: 0, writeCount: 0, skippedCount: 0,
    errors: []}]; the remote end of the destination client is handed back
    as it was found (no request was sent to it, no reply was used), and
    the destination client and the ledger are untouched. *)
Theorem empty_source_trivial_success now s src dst c src1 :
  source_read s src = (Ret [], c, src1) ->
  exists s',
    sync now s src dst = (Some (mkResult true 0 0 0 []), s', src1, dst)
    /\ destClient s' = destClient s
    /\ syncedTimestamps s' = syncedTimestamps s.
Proof.
  intros Hread. exists (with_sourceClient c s).
  rewrite (sync_nothing_read _ _ _ _ _ _ Hread). auto.
Qed.

Lemma empty_source_witness :
  exists s',
    sync 1700000000000 (Scenario.syncer_with ∅)
      (Scenario.net [Scenario.readings_ok []])
      (Scenario.net [Scenario.upload_ok])
    = (Some (mkResult true 0 0 0 []), s',
       mkNet [] [ReadPublisherLatestGlucoseValues (Some "src-session") 15 12] (-120),
       Scenario.net [Scenario.upload_ok])
    /\ destClient s' = Scenario.dest0
    /\ syncedTimestamps s' = ∅.
Proof.
  apply (empty_source_trivial_success 1700000000000 (Scenario.syncer_with ∅)
           (Scenario.net [Scenario.readings_ok []])
           (Scenario.net [Scenario.upload_ok]) Scenario.source0).
  vm_compute. reflexivity.
Defined.

(** C6 -- Sentinel detection.  Whenever the account-authenticate request
    is answered successfully with the all-zero UUID, [authenticate]
    rejects with the invalid-credentials error (message
    ["Authentication error: Invalid credentials"]), and the only request
    it has sent is the account-authenticate one: the session-login request
    is not sent and the next reply is left unused. *)
Theorem zero_uuid_is_invalid_credentials c n ra rest :
  truthy (accountId c) = false ->
  pending n = Response ra :: rest ->
  ok ra = true ->
  token ra = zero_uuid ->
  exists c' n',
    authenticate c n = (Throw "Authentication error: Invalid credentials", c', n')
    /\ sent n' = (sent n ++ [AuthenticatePublisherAccount
                               (username c) (password c) (applicationId c)])%list
    /\ pending n' = rest
    /\ sessionId c' = sessionId c.
Proof.
  intros Hacc Hp Hok Hz.
  rewrite (authenticate_zero_uuid _ _ _ _ Hacc Hp Hok Hz).
  eexists _, _. repeat split.
Qed.

Lemma zero_uuid_witness :
  exists c' n',
    authenticate (DexcomClient.constructor "alice" "pw-a" "us")
      (Scenario.net [Scenario.token_ok zero_uuid; Scenario.token_ok "session"])
    = (Throw "Authentication error: Invalid credentials", c', n')
    /\ sent n' = [AuthenticatePublisherAccount "alice" "pw-a"
                    "d89443d2-327c-4a6f-89e5-496bbb0317db"]
    /\ pending n' = [Scenario.token_ok "session"]
    /\ sessionId c' = None.
Proof.
  apply (zero_uuid_is_invalid_credentials
           (DexcomClient.constructor "alice" "pw-a" "us")
           (Scenario.net [Scenario.token_ok zero_uuid; Scenario.token_ok "session"])
           (mkResponse 200 (Scenario.quoted zero_uuid) (Some (JOther None None)))
           [Scenario.token_ok "session"]);
    reflexivity.
Defined.

(** C2 -- Write-failure atomicity.  In every cycle that has new readings
    to upload and whose upload is answered with a 500 that is no session
    expiry (its code is not [SessionIdNotFound] and its message [m], the
    [Message] of the body or else the body text, carries no expiry
    marker), [sync] returns [success: false] with
    [errors = ["Server error: " + m]], an entry that contains [m];
    [writeCount] stays 0 and the ledger is the one the cycle started
    with. *)
Theorem write_failure_leaves_ledger now s src dst readings c src1 d dst0 r rest :
  source_read s src = (Ret readings, c, src1) ->
  fresh s readings <> [] ->
  require_session (destClient s) dst = (Ret tt, d, dst0) ->
  pending dst0 = Response r :: rest ->
  status r = 500 ->
  Code_is (json r) "SessionIdNotFound" = false ->
  isSessionError (Message_or (json r) (text r)) = false ->
  exists res s' dst',
    sync now s src dst = (Some res, s', src1, dst')
    /\ success res = false
    /\ errors res = ["Server error: " +:+ Message_or (json r) (text r)]
    /\ includes ("Server error: " +:+ Message_or (json r) (text r))
                (Message_or (json r) (text r)) = true
    /\ writeCount res = 0%nat
    /\ syncedTimestamps s' = syncedTimestamps s.
Proof.
  intros Hread Hfresh Hsession Hp H500 Hcode Hmsg.
  rewrite (sync_after_read _ _ _ _ _ _ _ Hread Hfresh). unfold dest_write.
  rewrite (writeGlucoseValues_server_error _ _ _ _ _ _ _ _ Hsession Hp H500 Hcode Hmsg).
  eexists _, _, _. split; [reflexivity|].
  split; [reflexivity|]. split; [reflexivity|].
  split; [apply includes_append, includes_refl|].
  split; reflexivity.
Qed.

Lemma write_failure_witness :
  exists res s' dst',
    sync 1700000000000 (Scenario.syncer_with {[Finite 100; Finite 200]})
      (Scenario.net [Scenario.readings_ok Scenario.five])
      (Scenario.net [Response (Scenario.server_error "Unexpected")])
    = (Some res, s',
       mkNet [] [ReadPublisherLatestGlucoseValues (Some "src-session") 15 12] (-120),
       dst')
    /\ success res = false
    /\ errors res = ["Server error: Unexpected"]
    /\ includes "Server error: Unexpected" "Unexpected" = true
    /\ writeCount res = 0%nat
    /\ syncedTimestamps s' = {[Finite 100; Finite 200]}.
Proof.
  refine (write_failure_leaves_ledger 1700000000000
           (Scenario.syncer_with {[Finite 100; Finite 200]})
           (Scenario.net [Scenario.readings_ok Scenario.five])
           (Scenario.net [Response (Scenario.server_error "Unexpected")])
           Scenario.five Scenario.source0
           (mkNet [] [ReadPublisherLatestGlucoseValues (Some "src-session") 15 12] (-120))
           Scenario.dest0
           (Scenario.net [Response (Scenario.server_error "Unexpected")])
           (Scenario.server_error "Unexpected") [] _ _ _ _ _ _ _);
    try (vm_compute; reflexivity).
  vm_compute. discriminate.
Defined.



Lemma authenticate_keeps_accountId c n :
  truthy (accountId c) = true ->
  accountId (authenticate c n).1.2 = accountId c
  /\ sent (authenticate c n).2
     = (sent n ++ [LoginPublisherAccountById (accountId c) (password c) (applicationId c)])%list.
Proof.
  intros Hacc.
  unfold authenticate, try_catch, bind, this, makeRequest, assign, throw, ret.
  rewrite Hacc. simpl.
  destruct (pending n) as [|[r|e] rest]; simpl; [auto| |auto].
  destruct (ok r); simpl; [|auto].
  destruct (strip_quotes (text r) =? zero_uuid)%string; simpl; auto.
Qed.

(** C5 (as stated) fails: a client whose [accountId] was set by a
    successful account authentication has it cleared, together with
    [sessionId], when a read is answered with [SessionIdNotFound]; if the
    re-authentication fails both stay absent, and if it succeeds
    [accountId] is set a second time, to the new token. *)
Lemma accountId_cleared_on_expiry :
  let c0 := DexcomClient.constructor "alice" "pw-a" "us" in
  let c1 := (authenticate c0
               (Scenario.net [Scenario.token_ok "account-1";
                              Scenario.token_ok "session-1"])).1.2 in
  let c2 := (readGlucoseValues 15 12 c1
               (Scenario.net [Response Scenario.session_expired;
                              NetworkError "socket hang up"])).1.2 in
  let c3 := (readGlucoseValues 15 12 c1
               (Scenario.net [Response Scenario.session_expired;
                              Scenario.token_ok "account-2";
                              Scenario.token_ok "session-2";
                              Scenario.readings_ok []])).1.2 in
  accountId c1 = Some "account-1"
  /\ accountId c2 = None /\ sessionId c2 = None
  /\ accountId c3 = Some "account-2".
Proof. vm_compute. repeat split. Qed.

(** C5 (amended) -- Account-token lifecycle.  [sessionId] and [accountId]
    are both absent at construction.  While [accountId] is set,
    [authenticate] skips the account-authenticate request: it sends the
    login request only and leaves [accountId] as it is.  When a read or a
    write is answered with [SessionIdNotFound], both tokens are cleared
    and both are derived again: an account-authenticate request and a
    login request follow the failed request, and the client stores the
    two new tokens before the method calls itself again. *)
Theorem account_token_lifecycle :
  (forall username password region,
      sessionId (DexcomClient.constructor username password region) = None
      /\ accountId (DexcomClient.constructor username password region) = None)
  /\ (forall c n,
      truthy (accountId c) = true ->
      accountId (authenticate c n).1.2 = accountId c
      /\ sent (authenticate c n).2
         = (sent n ++ [LoginPublisherAccountById (accountId c) (password c)
                         (applicationId c)])%list)
  /\ (forall c n r ra rl rest,
      pending n = Response r :: Response ra :: Response rl :: rest ->
      expiry_reply r -> token_reply ra -> token_reply rl ->
      let reauthentication :=
        [AuthenticatePublisherAccount (username c) (password c) (applicationId c);
         LoginPublisherAccountById (Some (token ra)) (password c) (applicationId c)] in
      (forall minutes maxCount,
          read_attempt minutes maxCount c n
          = (Ret Again, logged_in (token ra) (token rl) c,
             mkNet rest
               (sent n ++ ReadPublisherLatestGlucoseValues (sessionId c) minutes maxCount
                       :: reauthentication)
               (timezoneOffset n)))
      /\ (forall sn egvs,
          write_attempt sn egvs c n
          = (Ret Again, logged_in (token ra) (token rl) c,
             mkNet rest
               (sent n ++ PostReceiverEgvRecords (sessionId c) sn egvs (- timezoneOffset n)
                       :: reauthentication)
               (timezoneOffset n)))).
Proof.
  split; [intros; split; reflexivity|].
  split; [exact authenticate_keeps_accountId|].
  intros c n r ra rl rest Hp Hr Ha Hl reauthentication. split.
  - intros minutes maxCount. apply (read_attempt_expiry _ _ _ _ r); assumption.
  - intros sn egvs. apply (write_attempt_expiry _ _ _ _ r); assumption.
Qed.

Lemma account_token_lifecycle_witness :
  accountId (authenticate Scenario.source0
               (Scenario.net [Scenario.token_ok "session-2"])).1.2
  = Some "src-account"
  /\ read_attempt 15 12 Scenario.source0
       (Scenario.net [Response Scenario.session_expired;
                      Scenario.token_ok "account-2"; Scenario.token_ok "session-2"])
     = (Ret Again, logged_in "account-2" "session-2" Scenario.source0,
        mkNet []
          [ReadPublisherLatestGlucoseValues (Some "src-session") 15 12;
           AuthenticatePublisherAccount "alice" "pw-a"
             "d89443d2-327c-4a6f-89e5-496bbb0317db";
           LoginPublisherAccountById (Some "account-2") "pw-a"
             "d89443d2-327c-4a6f-89e5-496bbb0317db"]
          (-120)).
Proof.
  destruct account_token_lifecycle as (_ & Hkeep & Hexpiry).
  split.
  - apply (Hkeep Scenario.source0 (Scenario.net [Scenario.token_ok "session-2"])).
    reflexivity.
  - assert (Ha : token_reply (mkResponse 200 (Scenario.quoted "account-2")
                                (Some (JOther None None)))).
    { split; [reflexivity | vm_compute; discriminate]. }
    assert (Hl : token_reply (mkResponse 200 (Scenario.quoted "session-2")
                                (Some (JOther None None)))).
    { split; [reflexivity | vm_compute; discriminate]. }
    exact (proj1 (Hexpiry Scenario.source0
                    (Scenario.net [Response Scenario.session_expired;
                                   Scenario.token_ok "account-2";
                                   Scenario.token_ok "session-2"])
                    Scenario.session_expired _ _ [] eq_refl
                    (conj eq_refl eq_refl) Ha Hl) 15 12).
Defined.

(** ** What a cycle sends to the destination *)

Lemma fresh_spec s readings r :
  In r (fresh s readings) <-> In r readings /\ key r ∉ syncedTimestamps s.
Proof. unfold fresh. rewrite filter_In, is_new_true. reflexivity. Qed.

Lemma sync_sends now s src dst readings c src1 :
  source_read s src = (Ret readings, c, src1) ->
  exists l,
    sent (sync now s src dst).2 = (sent dst ++ l)%list
    /\ Forall (write_request (serialNumber s) (map to_egv (fresh s readings))) l.
Proof.
  intros Hread.
  destruct (fresh s readings) as [|r0 rs0] eqn:Hf.
  - rewrite (sync_nothing_new _ _ _ _ _ _ _ Hread Hf). exists []. simpl.
    rewrite app_nil_r. auto.
  - assert (Hne : fresh s readings <> []) by (rewrite Hf; discriminate).
    rewrite (sync_after_read _ _ _ _ _ _ _ Hread Hne). unfold dest_write.
    rewrite Hf.
    destruct (sends_only_writeGlucoseValues (serialNumber s)
                (map to_egv (r0 :: rs0)) (destClient s) dst) as (l & Hl & HP).
    exists l.
    destruct (writeGlucoseValues (serialNumber s) (map to_egv (r0 :: rs0))
                (destClient s) dst) as [[[b|e|] d] dst1]; simpl in *; auto.
Qed.

Lemma sync_counts now s src dst readings c src1 res :
  source_read s src = (Ret readings, c, src1) ->
  (sync now s src dst).1.1.1 = Some res ->
  readCount res = length readings
  /\ skippedCount res = count_known (syncedTimestamps s) readings
  /\ (writeCount res = 0%nat \/ writeCount res = length (fresh s readings)).
Proof.
  intros Hread.
  destruct (fresh s readings) as [|r0 rs0] eqn:Hf.
  - rewrite (sync_nothing_new _ _ _ _ _ _ _ Hread Hf). simpl.
    intros [= <-]. simpl. auto.
  - assert (Hne : fresh s readings <> []) by (rewrite Hf; discriminate).
    rewrite (sync_after_read _ _ _ _ _ _ _ Hread Hne).
    destruct (dest_write s readings dst) as [[[b|e|] d] dst1]; simpl;
      intros [= <-]; simpl; rewrite ?Hf; auto.
Qed.

(** C1 (as stated) fails on the last point: the three new keys are not in
    the ledger after the write.  In the scenario, on a present-day clock,
    the cycle returns [readCount: 5, skippedCount: 2, writeCount: 3], but
    the keys 300, 400 and 500 it has just added, and the two the ledger
    held, are pruned before the cycle ends: the ledger it leaves is
    empty. *)
Lemma scenario_keys_pruned_in_same_cycle :
  let cycle :=
    sync 1700000000000 (Scenario.syncer_with {[Finite 100; Finite 200]})
      (Scenario.net [Scenario.readings_ok Scenario.five])
      (Scenario.net [Scenario.upload_ok]) in
  cycle.1.1.1 = Some (mkResult true 5 3 2 [])
  /\ (Finite 300 ∉ syncedTimestamps (cycle.1.1.2))
  /\ (Finite 400 ∉ syncedTimestamps (cycle.1.1.2))
  /\ (Finite 500 ∉ syncedTimestamps (cycle.1.1.2))
  /\ syncedTimestamps (cycle.1.1.2) = ∅.
Proof.
  cbv zeta. split; [vm_compute; reflexivity|].
  split; [apply (proj1 (bool_decide_eq_false _)); vm_compute; reflexivity|].
  split; [apply (proj1 (bool_decide_eq_false _)); vm_compute; reflexivity|].
  split; [apply (proj1 (bool_decide_eq_false _)); vm_compute; reflexivity|].
  vm_compute. reflexivity.
Qed.

Lemma five_keys_kept now :
  now < 100 + 24 * 60 * 60 * 1000 ->
  cleanupOldTimestamps now
    ({[Finite 100; Finite 200]} ∪ {[Finite 300; Finite 400; Finite 500]})
  = {[Finite 100; Finite 200]} ∪ {[Finite 300; Finite 400; Finite 500]}.
Proof.
  intros Hnow. apply set_eq. intros k. rewrite elem_of_cleanupOldTimestamps.
  split; [tauto|]. intros Hk. split; [exact Hk|].
  set_unfold in Hk.
  destruct Hk as [[-> | ->] | [[-> | ->] | ->]]; simpl; apply Z.ltb_lt; lia.
Qed.

Lemma five_keys_pruned now :
  500 + 24 * 60 * 60 * 1000 <= now ->
  cleanupOldTimestamps now
    ({[Finite 100; Finite 200]} ∪ {[Finite 300; Finite 400; Finite 500]})
  = ∅.
Proof.
  intros Hnow. apply set_eq. intros k. rewrite elem_of_cleanupOldTimestamps.
  split; [|intros Hk; set_solver].
  intros [Hk Hgt]. exfalso. set_unfold in Hk.
  destruct Hk as [[-> | ->] | [[-> | ->] | ->]]; simpl in Hgt;
    apply Z.ltb_lt in Hgt; lia.
Qed.

(** C1 (amended) -- Dedup guarantee.  In every cycle whose source read
    returns [readings], the new readings are those whose key is not in the
    ledger; every request the cycle sends to the destination is a request
    of [authenticate] or an upload of exactly the new readings, projected,
    so a reading whose key is in the ledger is in no upload; and when the
    cycle settles, [readCount] is the number of readings and
    [skippedCount] the number of those whose key is in the ledger.

    In particular, when the ledger is {100, 200}, the readings have the
    keys [100, 200, 300, 400, 500] and the upload succeeds, the result is
    [success: true, readCount: 5, writeCount: 3, skippedCount: 2,
    errors: []], and exactly the keys 300, 400 and 500 are added to the
    ledger, which the same cycle then prunes: the ledger the cycle leaves
    holds those of the five keys that are newer than the cycle's clock
    minus 24 hours.  It is the five keys while the clock is below
    100 + 24h, and it is empty once the clock has reached 500 + 24h. *)
Theorem dedup_guarantee :
  (forall now s src dst readings c src1,
      source_read s src = (Ret readings, c, src1) ->
      (forall r, In r (fresh s readings) <->
                 In r readings /\ key r ∉ syncedTimestamps s)
      /\ (exists l,
             sent (sync now s src dst).2 = (sent dst ++ l)%list
             /\ Forall (write_request (serialNumber s)
                          (map to_egv (fresh s readings))) l)
      /\ (forall res,
             (sync now s src dst).1.1.1 = Some res ->
             readCount res = length readings
             /\ skippedCount res = count_known (syncedTimestamps s) readings))
  /\ (forall now s src dst readings c src1 b d dst1,
      syncedTimestamps s = {[Finite 100; Finite 200]} ->
      map key readings
      = [Finite 100; Finite 200; Finite 300; Finite 400; Finite 500] ->
      source_read s src = (Ret readings, c, src1) ->
      dest_write s readings dst = (Ret b, d, dst1) ->
      exists s',
        sync now s src dst = (Some (mkResult true 5 3 2 []), s', src1, dst1)
        /\ map key (fresh s readings) = [Finite 300; Finite 400; Finite 500]
        /\ markSynced (fresh s readings) (syncedTimestamps s)
           = {[Finite 100; Finite 200]} ∪ {[Finite 300; Finite 400; Finite 500]}
        /\ (forall k,
               k ∈ syncedTimestamps s'
               <-> k ∈ ({[Finite 100; Finite 200]}
                        ∪ {[Finite 300; Finite 400; Finite 500]} : gset num)
                   /\ num_gtb k (now - 24 * 60 * 60 * 1000) = true)
        /\ (now < 100 + 24 * 60 * 60 * 1000 ->
            syncedTimestamps s'
            = {[Finite 100; Finite 200]} ∪ {[Finite 300; Finite 400; Finite 500]})
        /\ (500 + 24 * 60 * 60 * 1000 <= now -> syncedTimestamps s' = ∅)).
Proof.
  split.
  - intros now s src dst readings c src1 Hread. split; [|split].
    + intros r. apply fresh_spec.
    + exact (sync_sends _ _ _ _ _ _ _ Hread).
    + intros res Hres.
      destruct (sync_counts _ _ _ _ _ _ _ _ Hread Hres) as (? & ? & _). auto.
  - intros now s src dst readings c src1 b d dst1 Hledger Hkeys Hread Hwrite.
    destruct readings as [|r1 [|r2 [|r3 [|r4 [|r5 [|r6 rs]]]]]]; try discriminate.
    injection Hkeys as K1 K2 K3 K4 K5.
    assert (Hfresh : fresh s [r1; r2; r3; r4; r5] = [r3; r4; r5]).
    { unfold fresh. simpl.
      assert (H1 : is_new (syncedTimestamps s) r1 = false)
        by (unfold is_new; change (extractTimestamp (WT r1)) with (key r1);
            rewrite K1, Hledger; vm_compute; reflexivity).
      assert (H2 : is_new (syncedTimestamps s) r2 = false)
        by (unfold is_new; change (extractTimestamp (WT r2)) with (key r2);
            rewrite K2, Hledger; vm_compute; reflexivity).
      assert (H3 : is_new (syncedTimestamps s) r3 = true)
        by (unfold is_new; change (extractTimestamp (WT r3)) with (key r3);
            rewrite K3, Hledger; vm_compute; reflexivity).
      assert (H4 : is_new (syncedTimestamps s) r4 = true)
        by (unfold is_new; change (extractTimestamp (WT r4)) with (key r4);
            rewrite K4, Hledger; vm_compute; reflexivity).
      assert (H5 : is_new (syncedTimestamps s) r5 = true)
        by (unfold is_new; change (extractTimestamp (WT r5)) with (key r5);
            rewrite K5, Hledger; vm_compute; reflexivity).
      rewrite H1, H2, H3, H4, H5. reflexivity. }
    assert (Hne : fresh s [r1; r2; r3; r4; r5] <> [])
      by (rewrite Hfresh; discriminate).
    rewrite (sync_after_read _ _ _ _ _ _ _ Hread Hne), Hwrite.
    rewrite <- skipped_count. fold (fresh s [r1; r2; r3; r4; r5]).
    rewrite markSynced_union, Hfresh, Hledger. simpl map.
    rewrite K3, K4, K5.
    assert (Hset : list_to_set [Finite 300; Finite 400; Finite 500]
                   = ({[Finite 300; Finite 400; Finite 500]} : gset num)).
    { clear. set_solver. }
    rewrite Hset.
    eexists. split; [reflexivity|]. split; [reflexivity|].
    split; [reflexivity|].
    split; [intros k; apply elem_of_cleanupOldTimestamps|].
    split; [apply five_keys_kept | apply five_keys_pruned].
Qed.

Lemma dedup_guarantee_witness :
  exists s',
    sync 86400050 (Scenario.syncer_with {[Finite 100; Finite 200]})
      (Scenario.net [Scenario.readings_ok Scenario.five])
      (Scenario.net [Scenario.upload_ok])
    = (Some (mkResult true 5 3 2 []), s',
       mkNet [] [ReadPublisherLatestGlucoseValues (Some "src-session") 15 12] (-120),
       mkNet []
         [PostReceiverEgvRecords (Some "dst-session") "DEX2COM0001"
            [mkEgv "Flat" "/Date(1)/" "/Date(1)/" 103;
             mkEgv "Flat" "/Date(1)/" "/Date(1)/" 104;
             mkEgv "Flat" "/Date(1)/" "/Date(1)/" 105] 120]
         (-120))
    /\ syncedTimestamps s'
       = {[Finite 100; Finite 200]} ∪ {[Finite 300; Finite 400; Finite 500]}.
Proof.
  destruct dedup_guarantee as [_ Hscenario].
  assert (Hread : source_read (Scenario.syncer_with {[Finite 100; Finite 200]})
                    (Scenario.net [Scenario.readings_ok Scenario.five])
                  = (Ret Scenario.five, Scenario.source0,
                     mkNet [] [ReadPublisherLatestGlucoseValues
                                 (Some "src-session") 15 12] (-120)))
    by (vm_compute; reflexivity).
  assert (Hwrite : dest_write (Scenario.syncer_with {[Finite 100; Finite 200]})
                     Scenario.five (Scenario.net [Scenario.upload_ok])
                   = (Ret true, Scenario.dest0,
                      mkNet []
                        [PostReceiverEgvRecords (Some "dst-session") "DEX2COM0001"
                           [mkEgv "Flat" "/Date(1)/" "/Date(1)/" 103;
                            mkEgv "Flat" "/Date(1)/" "/Date(1)/" 104;
                            mkEgv "Flat" "/Date(1)/" "/Date(1)/" 105] 120]
                        (-120)))
    by (vm_compute; reflexivity).
  destruct (Hscenario 86400050 (Scenario.syncer_with {[Finite 100; Finite 200]})
              (Scenario.net [Scenario.readings_ok Scenario.five])
              (Scenario.net [Scenario.upload_ok]) Scenario.five _ _ _ _ _
              eq_refl eq_refl Hread Hwrite)
    as (s' & Hsync & _ & _ & _ & Hkept & _).
  exists s'. split; [exact Hsync|]. apply Hkept. lia.
Defined.

Lemma count_known_all ledger readings :
  (forall r, In r readings -> key r ∈ ledger) ->
  count_known ledger readings = length readings.
Proof.
  unfold count_known. induction readings as [|r rs IH]; intros H; [reflexivity|].
  simpl. rewrite bool_decide_eq_true_2 by (apply H; left; reflexivity).
  simpl. rewrite IH; [reflexivity|]. intros r' Hin. apply H. right. exact Hin.
Qed.

(** C7 (as stated) fails: with the five readings of the specification's
    own scenario, whose keys are older than 24 hours, the first cycle
    uploads three readings and succeeds, its pruning empties the ledger,
    and a second cycle on the same readings uploads all five. *)
Lemma second_cycle_uploads_again :
  let cycle1 :=
    sync 1700000000000 (Scenario.syncer_with {[Finite 100; Finite 200]})
      (Scenario.net [Scenario.readings_ok Scenario.five])
      (Scenario.net [Scenario.upload_ok]) in
  let cycle2 :=
    sync 1700000300000 cycle1.1.1.2
      (Scenario.net [Scenario.readings_ok Scenario.five])
      (Scenario.net [Scenario.upload_ok]) in
  cycle1.1.1.1 = Some (mkResult true 5 3 2 [])
  /\ cycle2.1.1.1 = Some (mkResult true 5 5 0 []).
Proof. vm_compute. split; reflexivity. Qed.

(** C7 (amended) -- Idempotence of consecutive cycles.  When a cycle reads
    [readings] and succeeds, and every reading's key is newer than the
    cycle's clock minus 24 hours, a following cycle that reads the same
    [readings] returns [success: true] with [writeCount = 0] and
    [skippedCount] equal to the number of readings, and sends nothing to
    the destination. *)
Theorem second_cycle_writes_nothing
  now1 now2 s src dst readings c1 src1 res1 s1 dst1 src2 dst2 c2 src2' :
  source_read s src = (Ret readings, c1, src1) ->
  sync now1 s src dst = (Some res1, s1, src1, dst1) ->
  success res1 = true ->
  (forall r, In r readings -> num_gtb (key r) (now1 - 86400000) = true) ->
  source_read s1 src2 = (Ret readings, c2, src2') ->
  sync now2 s1 src2 dst2
  = (Some (mkResult true (length readings) 0 (length readings) []),
     with_sourceClient c2 s1, src2', dst2).
Proof.
  intros Hread1 Hsync1 Hok Hrecent Hread2.
  assert (Hknown : forall r, In r readings -> key r ∈ syncedTimestamps s1).
  { destruct (fresh s readings) as [|r0 rs0] eqn:Hf.
    - rewrite (sync_nothing_new _ _ _ _ _ _ _ Hread1 Hf) in Hsync1.
      injection Hsync1 as _ <- _. simpl.
      apply filter_nil_known. exact Hf.
    - assert (Hne : fresh s readings <> []) by (rewrite Hf; discriminate).
      rewrite (sync_after_read _ _ _ _ _ _ _ Hread1 Hne) in Hsync1.
      destruct (dest_write s readings dst) as [[[b|e|] d] dst'].
      + injection Hsync1 as _ <- _. simpl. intros r Hin.
        apply elem_of_cleanupOldTimestamps. split; [|apply Hrecent, Hin].
        apply elem_of_union.
        destruct (decide (key r ∈ syncedTimestamps s)) as [Hk|Hk]; [left; exact Hk|].
        right. apply elem_of_list_to_set, list_elem_of_In, in_map.
        apply fresh_spec. auto.
      + injection Hsync1 as <- _ _. discriminate.
      + discriminate. }
  assert (Hf2 : fresh s1 readings = []) by (apply filter_nil_known, Hknown).
  rewrite (sync_nothing_new _ _ _ _ _ _ _ Hread2 Hf2).
  rewrite (count_known_all _ _ Hknown). reflexivity.
Qed.

Lemma second_cycle_witness :
  sync 1700000300000
    (with_syncedTimestamps {[Finite 1699999900000]}
       (Scenario.syncer_with {[Finite 1699999900000]}))
    (Scenario.net [Scenario.readings_ok [Scenario.reading_at 110 "/Date(1699999900000)/"]])
    (Scenario.net [])
  = (Some (mkResult true 1 0 1 []),
     with_sourceClient Scenario.source0
       (with_syncedTimestamps {[Finite 1699999900000]}
          (Scenario.syncer_with {[Finite 1699999900000]})),
     mkNet [] [ReadPublisherLatestGlucoseValues (Some "src-session") 15 12] (-120),
     Scenario.net []).
Proof.
  refine (second_cycle_writes_nothing 1700000000000 1700000300000
            (Scenario.syncer_with ∅)
            (Scenario.net [Scenario.readings_ok
                             [Scenario.reading_at 110 "/Date(1699999900000)/"]])
            (Scenario.net [Scenario.upload_ok])
            [Scenario.reading_at 110 "/Date(1699999900000)/"]
            Scenario.source0 _ (mkResult true 1 1 0 []) _ _ _ (Scenario.net [])
            Scenario.source0 _ _ _ _ _ _).
  - vm_compute. reflexivity.
  - vm_compute. reflexivity.
  - reflexivity.
  - intros r [<- | []]. vm_compute. reflexivity.
  - vm_compute. reflexivity.
Defined.

(** C8 (as stated) fails: a key records when its reading was received,
    not when it entered the ledger.  The key 1700000000000 is added by a
    cycle that runs five minutes later, at T = 1700000300000; a cycle at
    1700086400000, which is before T + 24h, prunes it. *)
Lemma key_pruned_before_a_day_in_ledger :
  let T := 1700000300000 in
  let cycle1 :=
    sync T (Scenario.syncer_with ∅)
      (Scenario.net [Scenario.readings_ok
                       [Scenario.reading_at 110 "/Date(1700000000000)/"]])
      (Scenario.net [Scenario.upload_ok]) in
  let cycle2 :=
    sync 1700086400000 cycle1.1.1.2
      (Scenario.net [Scenario.readings_ok
                       [Scenario.reading_at 120 "/Date(1700086300000)/"]])
      (Scenario.net [Scenario.upload_ok]) in
  Finite 1700000000000 ∈ syncedTimestamps cycle1.1.1.2
  /\ 1700086400000 < T + 24 * 60 * 60 * 1000
  /\ Finite 1700000000000 ∉ syncedTimestamps cycle2.1.1.2.
Proof.
  cbv zeta. split; [|split].
  - apply (proj1 (bool_decide_eq_true _)). vm_compute. reflexivity.
  - lia.
  - apply (proj1 (bool_decide_eq_false _)). vm_compute. reflexivity.
Qed.

(** C8 (amended) -- Ledger pruning boundary.  Pruning at clock [now] keeps
    exactly the keys of the ledger that are strictly greater than
    [now] minus 24 hours: a key of value K (the epoch milliseconds of its
    reading) is in the pruned ledger if and only if it was in the ledger
    and [now < K + 24h]; so it is absent after any pruning at
    [now >= K + 24h] and kept by any pruning at [now < K + 24h].  The
    time at which the key was added plays no part. *)
Theorem pruning_boundary :
  (forall now (ledger : gset num) (k : num),
      k ∈ cleanupOldTimestamps now ledger
      <-> k ∈ ledger /\ num_gtb k (now - 24 * 60 * 60 * 1000) = true)
  /\ (forall now (ledger : gset num) (K : Z),
      Finite K ∈ cleanupOldTimestamps now ledger
      <-> Finite K ∈ ledger /\ now < K + 24 * 60 * 60 * 1000).
Proof.
  split.
  - intros now ledger k. apply elem_of_cleanupOldTimestamps.
  - intros now ledger K. rewrite elem_of_cleanupOldTimestamps. simpl.
    rewrite Z.ltb_lt. split; intros [H1 H2]; split; auto; lia.
Qed.

(** ** Key derivation *)

Lemma digits_prefix_idem s : digits_prefix (digits_prefix s) = digits_prefix s.
Proof.
  induction s as [|c s IH]; simpl; [reflexivity|].
  destruct (is_digit c) eqn:Hc; simpl; [|reflexivity]. rewrite Hc, IH. reflexivity.
Qed.

Lemma parseInt_digits_prefix s : parseInt (digits_prefix s) = parseInt s.
Proof. unfold parseInt. rewrite digits_prefix_idem. reflexivity. Qed.

Lemma extractTimestamp_spec_key s : extractTimestamp s = spec_key s.
Proof.
  unfold extractTimestamp, spec_key, first_digit_run.
  induction s as [|c s IH]; [reflexivity|].
  simpl. destruct (is_digit c) eqn:Hc; simpl.
  - rewrite Hc. reflexivity.
  - exact IH.
Qed.

Lemma toNumber_exact n : 0 <= n < 2 ^ 53 -> toNumber n = Finite n.
Proof.
  intros [H0 H53]. unfold toNumber, round53.
  assert (He : Z.log2 n - 52 <= 0).
  { destruct (Z.eq_dec n 0) as [->|Hn]; [simpl; lia|].
    assert (Z.log2 n < 53) by (apply Z.log2_lt_pow2; lia). lia. }
  rewrite (proj2 (Z.leb_le _ _) He).
  assert (Hlt : n < 2 ^ 1024).
  { eapply Z.lt_trans; [exact H53|]. apply Z.pow_lt_mono_r; lia. }
  rewrite (proj2 (Z.ltb_lt _ _) Hlt). reflexivity.
Qed.

Lemma decimal_value_nonneg s : forall acc,
  0 <= acc -> 0 <= decimal_value acc (digits_prefix s).
Proof.
  induction s as [|c s IH]; intros acc Hacc; simpl; [exact Hacc|].
  destruct (is_digit c) eqn:Hc; simpl; [|exact Hacc].
  apply IH. unfold is_digit in Hc. apply andb_prop in Hc as [Hc _].
  apply Nat.leb_le in Hc. unfold digit_value. lia.
Qed.

Lemma parseInt_run ds :
  ds <> "" -> digits_prefix ds = ds -> parseInt ds = toNumber (decimal_value 0 ds).
Proof. intros Hne Hds. unfold parseInt. rewrite Hds. destruct ds; [done | reflexivity]. Qed.

Lemma has_digit_run_nonempty s :
  has_digit s = true -> first_digit_run s <> "".
Proof.
  unfold first_digit_run. induction s as [|c s IH]; simpl; [discriminate|].
  destruct (is_digit c) eqn:Hc; simpl.
  - rewrite Hc. discriminate.
  - exact IH.
Qed.

Lemma no_digit_key s : has_digit s = false -> extractTimestamp s = Finite 0.
Proof. intros H. rewrite extractTimestamp_spec_key. unfold spec_key. rewrite H. reflexivity. Qed.

Lemma zero_pruned now (ledger : gset num) :
  24 * 60 * 60 * 1000 <= now -> Finite 0 ∉ cleanupOldTimestamps now ledger.
Proof.
  intros Hnow Hin. apply elem_of_cleanupOldTimestamps in Hin as [_ Hgt].
  simpl in Hgt. apply Z.ltb_lt in Hgt. lia.
Qed.

(** C10 (as stated) fails: syncing a reading without digits does not make
    later ones duplicates.  Key 0 is added and pruned in the same cycle,
    so the next cycle uploads the next digit-less reading. *)
Lemma digitless_reading_uploaded_again :
  let cycle1 :=
    sync 1700000000000 (Scenario.syncer_with ∅)
      (Scenario.net [Scenario.readings_ok [Scenario.reading_at 110 "n/a"]])
      (Scenario.net [Scenario.upload_ok]) in
  let cycle2 :=
    sync 1700000300000 cycle1.1.1.2
      (Scenario.net [Scenario.readings_ok [Scenario.reading_at 120 "/Date()/"]])
      (Scenario.net [Scenario.upload_ok]) in
  extractTimestamp "n/a" = Finite 0
  /\ extractTimestamp "/Date()/" = Finite 0
  /\ cycle1.1.1.1 = Some (mkResult true 1 1 0 [])
  /\ cycle2.1.1.1 = Some (mkResult true 1 1 0 []).
Proof. vm_compute. repeat split. Qed.

(** C10 (amended) -- Key derivation and digit-less readings.  For every
    string the derived key is the first run of decimal digits, parsed by
    [parseInt], and 0 when the string has no decimal digit; when the run
    denotes an integer below 2^53 the key is exactly that integer.  So
    all readings whose [WT] has no digit share the key 0, and such a
    reading is skipped while 0 is in the ledger.  But pruning removes the
    key 0 whenever the clock is at least 24 hours past the epoch, so the
    ledger a cycle leaves after an upload never holds 0 and the next
    digit-less reading is uploaded again. *)
Theorem digitless_readings_share_key_zero :
  (forall s, extractTimestamp s = spec_key s)
  /\ (forall s,
      has_digit s = true ->
      decimal_value 0 (first_digit_run s) < 2 ^ 53 ->
      extractTimestamp s = Finite (decimal_value 0 (first_digit_run s)))
  /\ (forall s, has_digit s = false -> extractTimestamp s = Finite 0)
  /\ (forall (ledger : gset num) r,
      has_digit (WT r) = false -> Finite 0 ∈ ledger -> is_new ledger r = false)
  /\ (forall now s src dst readings c src1 b d dst1,
      24 * 60 * 60 * 1000 <= now ->
      source_read s src = (Ret readings, c, src1) ->
      fresh s readings <> [] ->
      dest_write s readings dst = (Ret b, d, dst1) ->
      Finite 0 ∉ syncedTimestamps (sync now s src dst).1.1.2).
Proof.
  split; [exact extractTimestamp_spec_key|].
  split; [|split; [exact no_digit_key|split]].
  - intros s Hd Hsafe. rewrite extractTimestamp_spec_key. unfold spec_key.
    rewrite Hd.
    rewrite (parseInt_run _ (has_digit_run_nonempty s Hd) (digits_prefix_idem _)).
    apply toNumber_exact. split; [|exact Hsafe].
    apply decimal_value_nonneg. lia.
  - intros ledger r Hd Hin. apply is_new_false. unfold key.
    rewrite (no_digit_key _ Hd). exact Hin.
  - intros now s src dst readings c src1 b d dst1 Hnow Hread Hne Hwrite.
    rewrite (sync_after_read _ _ _ _ _ _ _ Hread Hne), Hwrite. simpl.
    apply zero_pruned. exact Hnow.
Qed.

Lemma digitless_witness :
  extractTimestamp "/Date(1700000000000)/" = Finite 1700000000000
  /\ extractTimestamp "n/a" = Finite 0
  /\ is_new {[Finite 0]} (Scenario.reading_at 110 "n/a") = false
  /\ Finite 0 ∉ syncedTimestamps
                  (sync 1700000000000 (Scenario.syncer_with ∅)
                     (Scenario.net [Scenario.readings_ok [Scenario.reading_at 110 "n/a"]])
                     (Scenario.net [Scenario.upload_ok])).1.1.2.
Proof.
  destruct digitless_readings_share_key_zero as (_ & Hexact & Hzero & Hskip & Hpruned).
  split; [|split; [|split]].
  - apply (Hexact "/Date(1700000000000)/"); [reflexivity | vm_compute; reflexivity].
  - apply (Hzero "n/a"). reflexivity.
  - apply (Hskip {[Finite 0]} (Scenario.reading_at 110 "n/a")); [reflexivity|].
    apply elem_of_singleton. reflexivity.
  - refine (Hpruned 1700000000000 (Scenario.syncer_with ∅)
              (Scenario.net [Scenario.readings_ok [Scenario.reading_at 110 "n/a"]])
              (Scenario.net [Scenario.upload_ok])
              [Scenario.reading_at 110 "n/a"] Scenario.source0 _ true Scenario.dest0 _
              _ _ _ _).
    + lia.
    + vm_compute. reflexivity.
    + vm_compute. discriminate.
    + vm_compute. reflexivity.
Defined.

(** ** The daemon *)

Lemma daemon_before_armed d0 es d :
  match daemon_phase d0 with
  | Registering => inFlight d0 = 0%nat
  | InitialSync => inFlight d0 = 1%nat
  | Armed => True
  end ->
  daemon_run d0 es = Some d ->
  daemon_phase d <> Armed -> (inFlight d <= 1)%nat.
Proof.
  revert d0. induction es as [|e es IH]; intros d0 Hinv Hrun Hphase.
  - injection Hrun as <-. destruct (daemon_phase d0); try lia. done.
  - simpl in Hrun. destruct (daemon_step d0 e) as [d1|] eqn:Hstep; [|discriminate].
    apply (IH d1); auto.
    unfold daemon_step in Hstep.
    destruct (daemon_phase d0), e; try discriminate;
      try (injection Hstep as <-; simpl; auto; fail).
    destruct (inFlight d0); [discriminate|]. injection Hstep as <-. simpl. auto.
Qed.

Lemma daemon_idle_ticks d0 es d :
  (inFlight d0 <= 1)%nat ->
  (daemon_phase d0 = Registering -> inFlight d0 = 0%nat) ->
  daemon_run d0 es = Some d ->
  ticks_when_idle d0 es = true -> (inFlight d <= 1)%nat.
Proof.
  revert d0. induction es as [|e es IH]; intros d0 Hle Hreg Hrun Hidle.
  - injection Hrun as <-. exact Hle.
  - simpl in Hrun, Hidle.
    destruct (daemon_step d0 e) as [d1|] eqn:Hstep; [|discriminate].
    assert (Hidle1 : ticks_when_idle d1 es = true).
    { destruct e, (inFlight d0); try exact Hidle; discriminate. }
    assert (Hd1 : (inFlight d1 <= 1)%nat /\ daemon_phase d1 <> Registering).
    { unfold daemon_step in Hstep.
      destruct (daemon_phase d0) eqn:Hph, e; try discriminate.
      - injection Hstep as <-. simpl. split; [lia | discriminate].
      - injection Hstep as <-. simpl. split; [lia | discriminate].
      - destruct (inFlight d0) as [|k] eqn:Hk; [discriminate|].
        injection Hstep as <-. simpl. split; [lia | discriminate].
      - destruct (inFlight d0) as [|k] eqn:Hk; [|discriminate].
        injection Hstep as <-. simpl. split; [lia | discriminate]. }
    destruct Hd1 as [Hle1 Hph1].
    apply (IH d1 Hle1); [intros Hc; contradiction | exact Hrun | exact Hidle1].
Qed.

(** C4 (as stated) fails: once the timer is armed, two ticks with no
    cycle settling in between leave two cycles in flight. *)
Lemma two_cycles_in_flight :
  exists d,
    daemon_run runDaemon [RegisterSettled; CycleSettled; Tick; Tick] = Some d
    /\ inFlight d = 2%nat.
Proof. eexists. split; reflexivity. Qed.

(** C4 (amended) -- Scheduling of cycles.  Until the timer is armed (while
    the receiver is registered and during the initial cycle, both
    awaited) at most one cycle is in flight.  Once it is armed, every
    tick starts a cycle whatever is in flight: the callback has no guard.
    So at most one cycle is in flight as long as every tick comes when the
    previous cycle has settled, and not otherwise. *)
Theorem cycles_overlap_unless_ticks_find_idle :
  (forall es d,
      daemon_run runDaemon es = Some d ->
      daemon_phase d <> Armed -> (inFlight d <= 1)%nat)
  /\ (forall d,
      daemon_phase d = Armed ->
      daemon_step d Tick = Some (mkDaemon Armed (S (inFlight d)) (S (started d))))
  /\ (forall es d,
      daemon_run runDaemon es = Some d ->
      ticks_when_idle runDaemon es = true -> (inFlight d <= 1)%nat).
Proof.
  split; [|split].
  - intros es d. apply daemon_before_armed. reflexivity.
  - intros d Hd. unfold daemon_step. rewrite Hd. reflexivity.
  - intros es d. apply daemon_idle_ticks; simpl; auto.
Qed.

Lemma cycles_witness :
  daemon_step (mkDaemon Armed 1 2) Tick = Some (mkDaemon Armed 2 3)
  /\ (inFlight (mkDaemon Armed 1 3) <= 1)%nat.
Proof.
  destruct cycles_overlap_unless_ticks_find_idle as (_ & Htick & Hidle).
  split.
  - apply (Htick (mkDaemon Armed 1 2)). reflexivity.
  - apply (Hidle [RegisterSettled; CycleSettled; Tick; CycleSettled; Tick]);
      reflexivity.
Defined.

(** * Further properties of the client *)

Import Invariants Commands.

(** ** Characters of a printed number *)

Lemma all_chars_weaken (p q : ascii -> bool) s :
  (forall c, p c = true -> q c = true) ->
  all_chars p s = true -> all_chars q s = true.
Proof.
  intros Hpq. induction s as [|c s IH]; simpl; [auto|].
  intros H. apply andb_prop in H as [Hc Hs]. rewrite (Hpq _ Hc), (IH Hs). reflexivity.
Qed.

Lemma string_of_uint_digits d : all_chars is_digit (NilEmpty.string_of_uint d) = true.
Proof. induction d; simpl; auto. Qed.

Lemma show_Z_chars z : all_chars sign_or_digit (show_Z z) = true.
Proof.
  unfold show_Z, NilZero.string_of_int.
  assert (Hu : forall d, all_chars sign_or_digit (NilZero.string_of_uint d) = true).
  { intros d. unfold NilZero.string_of_uint.
    destruct d; try reflexivity;
      (eapply all_chars_weaken; [|apply string_of_uint_digits]);
      intros c Hc; unfold sign_or_digit; rewrite Hc; reflexivity. }
  destruct (Z.to_int z) as [d|d]; [apply Hu|].
  change (all_chars sign_or_digit (String "-" (NilZero.string_of_uint d)) = true).
  simpl. apply Hu.
Qed.

(** A string none of whose characters starts [sub] does not contain
    [sub], and can be skipped in front of another string. *)
Lemma includes_skip p s c0 sub :
  all_chars (fun c => negb (Ascii.eqb c c0)) p = true ->
  includes (p +:+ s) (String c0 sub) = includes s (String c0 sub).
Proof.
  induction p as [|a p IH]; intros H; [reflexivity|].
  simpl in H. apply andb_prop in H as [Ha Hp].
  change (String a p +:+ s) with (String a (p +:+ s)).
  rewrite includes_cons. simpl String.prefix.
  destruct (Ascii.ascii_dec c0 a) as [->|_].
  - rewrite Ascii.eqb_refl in Ha. discriminate.
  - apply IH, Hp.
Qed.

Lemma isSessionError_skip p s :
  all_chars sign_or_digit p = true ->
  isSessionError (p +:+ s) = isSessionError s.
Proof.
  intros H. unfold isSessionError.
  rewrite !includes_skip; [reflexivity| | |];
    (eapply all_chars_weaken; [|exact H]);
    intros c Hc; unfold sign_or_digit, is_digit in Hc;
    destruct c as [[|] [|] [|] [|] [|] [|] [|] [|]]; try discriminate; reflexivity.
Qed.

Lemma append_empty_r s : s +:+ "" = s.
Proof.
  induction s as [|c s IH]; [reflexivity|].
  change (String c (s +:+ "") = String c s). rewrite IH. reflexivity.
Qed.

Lemma isSessionError_number z : isSessionError (show_Z z) = false.
Proof.
  rewrite <- (append_empty_r (show_Z z)).
  rewrite (isSessionError_skip _ "" (show_Z_chars z)). reflexivity.
Qed.

Lemma isSessionError_get_readings z :
  isSessionError ("Failed to get readings: " +:+ show_Z z) = false.
Proof.
  change (isSessionError ("Failed to get readings: " +:+ show_Z z))
    with (isSessionError (show_Z z)).
  apply isSessionError_number.
Qed.

Lemma isSessionError_write_readings z body :
  isSessionError ("Failed to write readings: " +:+ show_Z z +:+ " - " +:+ body)
  = isSessionError body.
Proof.
  change (isSessionError ("Failed to write readings: " +:+ show_Z z +:+ " - " +:+ body))
    with (isSessionError (show_Z z +:+ " - " +:+ body)).
  rewrite (isSessionError_skip _ _ (show_Z_chars z)). reflexivity.
Qed.

(** ** What one reply does to a read *)

Lemma account_2_reply :
  token_reply (mkResponse 200 (Scenario.quoted "account-2") (Some (JOther None None))).
Proof. split; [reflexivity | vm_compute; discriminate]. Qed.

Lemma session_2_reply :
  token_reply (mkResponse 200 (Scenario.quoted "session-2") (Some (JOther None None))).
Proof. split; [reflexivity | vm_compute; discriminate]. Qed.

Lemma readGlucoseValues_ok_reply minutes maxCount c n r rest :
  truthy (sessionId c) = true ->
  pending n = Response r :: rest ->
  ok r = true ->
  readGlucoseValues minutes maxCount c n
  = (Ret (readings_of r), c,
     mkNet rest
       (sent n ++ [ReadPublisherLatestGlucoseValues (sessionId c) minutes maxCount])
       (timezoneOffset n)).
Proof.
  intros Hs Hp Hok. rewrite readGlucoseValues_unfold. unfold bind at 1.
  rewrite (require_session_held _ _ Hs).
  unfold bind at 1, read_attempt, try_catch, bind, this, makeRequest.
  rewrite Hp. simpl. rewrite (ok_not_500 _ Hok), Hok. simpl.
  unfold readings_of. destruct (json r) as [[rs|co me]|]; reflexivity.
Qed.

(** X1 -- A read that is answered with a 2xx status never fails.  A
    client that holds a session sends one read request and returns the
    array of the body, or the empty list when the body is not an array
    (not JSON, [null], an object); its tokens are unchanged. *)
Theorem read_ok_reply_never_fails minutes maxCount c n r rest :
  truthy (sessionId c) = true ->
  pending n = Response r :: rest ->
  ok r = true ->
  readGlucoseValues minutes maxCount c n
  = (Ret (readings_of r), c,
     mkNet rest
       (sent n ++ [ReadPublisherLatestGlucoseValues (sessionId c) minutes maxCount])
       (timezoneOffset n)).
Proof.
  intros Hs Hp Hok. apply readGlucoseValues_ok_reply; assumption.
Qed.
Lemma read_ok_reply_witness :
  readGlucoseValues 15 12 Scenario.source0
    (Scenario.net [Response (mkResponse 200 "not json" None)])
  = (Ret [], Scenario.source0,
     mkNet [] [ReadPublisherLatestGlucoseValues (Some "src-session") 15 12] (-120)).
Proof.
  exact (read_ok_reply_never_fails 15 12 Scenario.source0
           (Scenario.net [Response (mkResponse 200 "not json" None)])
           (mkResponse 200 "not json" None) [] eq_refl eq_refl eq_refl).
Defined.


(** X2 -- A read that is answered with a status outside 2xx other than
    500 is surfaced as ["Failed to get readings: <status>"]: one request,
    no re-authentication and no retry, the tokens are kept -- also when
    the body names [SessionIdNotFound]. *)
Theorem read_http_failure_is_surfaced minutes maxCount c n r rest :
  truthy (sessionId c) = true ->
  pending n = Response r :: rest ->
  ok r = false ->
  status r <> 500 ->
  readGlucoseValues minutes maxCount c n
  = (Throw ("Failed to get readings: " +:+ show_Z (status r)), c,
     mkNet rest
       (sent n ++ [ReadPublisherLatestGlucoseValues (sessionId c) minutes maxCount])
       (timezoneOffset n)).
Proof.
  intros Hs Hp Hok H500. rewrite readGlucoseValues_unfold. unfold bind at 1.
  rewrite (require_session_held _ _ Hs).
  unfold bind at 1, read_attempt, try_catch, bind, this, makeRequest.
  rewrite Hp. simpl. rewrite (proj2 (Z.eqb_neq _ _) H500), Hok. simpl.
  unfold throw. rewrite isSessionError_get_readings. reflexivity.
Qed.
Lemma read_http_failure_witness :
  readGlucoseValues 15 12 Scenario.source0
    (Scenario.net
       [Response (mkResponse 503 "{...}" (Some (JOther (Some "SessionIdNotFound") None)));
        Scenario.token_ok "account-2"])
  = (Throw "Failed to get readings: 503", Scenario.source0,
     mkNet [Scenario.token_ok "account-2"]
       [ReadPublisherLatestGlucoseValues (Some "src-session") 15 12] (-120)).
Proof.
  refine (read_http_failure_is_surfaced 15 12 Scenario.source0
            (Scenario.net
               [Response (mkResponse 503 "{...}"
                            (Some (JOther (Some "SessionIdNotFound") None)));
                Scenario.token_ok "account-2"])
            (mkResponse 503 "{...}" (Some (JOther (Some "SessionIdNotFound") None)))
            [Scenario.token_ok "account-2"] _ _ _ _).
  - reflexivity.
  - reflexivity.
  - reflexivity.
  - simpl. discriminate.
Defined.


Lemma reauthenticate_and_retry_tokens {A} c n ra rl rest :
  pending n = Response ra :: Response rl :: rest ->
  token_reply ra -> token_reply rl ->
  @reauthenticate_and_retry A c n
  = (Ret Again, logged_in (token ra) (token rl) c,
     mkNet rest
       (sent n ++ [AuthenticatePublisherAccount (username c) (password c) (applicationId c);
                   LoginPublisherAccountById (Some (token ra)) (password c) (applicationId c)])
       (timezoneOffset n)).
Proof.
  intros Hp Ha Hl.
  unfold reauthenticate_and_retry, clear_session, bind, assign. simpl.
  erewrite authenticate_fresh; simpl; eauto.
Qed.

Lemma read_attempt_session_error minutes maxCount c n r ra rl rest :
  pending n = Response r :: Response ra :: Response rl :: rest ->
  session_error_reply "Unknown" r -> token_reply ra -> token_reply rl ->
  read_attempt minutes maxCount c n
  = (Ret Again, logged_in (token ra) (token rl) c,
     mkNet rest
       (sent n ++ [ReadPublisherLatestGlucoseValues (sessionId c) minutes maxCount;
                   AuthenticatePublisherAccount (username c) (password c) (applicationId c);
                   LoginPublisherAccountById (Some (token ra)) (password c) (applicationId c)])
       (timezoneOffset n)).
Proof.
  intros Hp [Hs Herr] Ha Hl.
  unfold read_attempt, try_catch at 1, bind at 1 2, this at 1, makeRequest at 1.
  rewrite Hp. simpl. rewrite Hs. simpl.
  destruct (Code_is (json r) "SessionIdNotFound"
            || includes (Message_or (json r) "Unknown") "Session not active"
            || includes (Message_or (json r) "Unknown") "timed out") eqn:Htry.
  - erewrite reauthenticate_and_retry_tokens; simpl; eauto.
    rewrite <- app_assoc. reflexivity.
  - unfold throw. rewrite isSessionError_server_error.
    assert (Hm : isSessionError (Message_or (json r) "Unknown") = true).
    { destruct Herr as [Hc|Hm]; [|exact Hm].
      rewrite Hc in Htry. discriminate. }
    rewrite Hm.
    erewrite reauthenticate_and_retry_tokens; simpl; eauto.
    rewrite <- app_assoc. reflexivity.
Qed.

Lemma write_attempt_session_error sn egvs c n r ra rl rest :
  pending n = Response r :: Response ra :: Response rl :: rest ->
  session_error_reply (text r) r -> token_reply ra -> token_reply rl ->
  write_attempt sn egvs c n
  = (Ret Again, logged_in (token ra) (token rl) c,
     mkNet rest
       (sent n ++ [PostReceiverEgvRecords (sessionId c) sn egvs (- timezoneOffset n);
                   AuthenticatePublisherAccount (username c) (password c) (applicationId c);
                   LoginPublisherAccountById (Some (token ra)) (password c) (applicationId c)])
       (timezoneOffset n)).
Proof.
  intros Hp [Hs Herr] Ha Hl.
  unfold write_attempt, try_catch at 1, bind at 1 2 3, this at 1,
    getTimezoneOffset, makeRequest at 1.
  rewrite Hp. simpl. rewrite Hs. simpl.
  destruct (Code_is (json r) "SessionIdNotFound"
            || includes (Message_or (json r) (text r)) "Session not active"
            || includes (Message_or (json r) (text r)) "timed out") eqn:Htry.
  - erewrite reauthenticate_and_retry_tokens; simpl; eauto.
    rewrite <- app_assoc. reflexivity.
  - unfold throw. rewrite isSessionError_server_error.
    assert (Hm : isSessionError (Message_or (json r) (text r)) = true).
    { destruct Herr as [Hc|Hm]; [|exact Hm].
      rewrite Hc in Htry. discriminate. }
    rewrite Hm.
    erewrite reauthenticate_and_retry_tokens; simpl; eauto.
    rewrite <- app_assoc. reflexivity.
Qed.

(** X3 -- Session errors are also recognised by their message.  A 500
    reply counts as a session error when its code is [SessionIdNotFound]
    or when its message (the [Message] of the body; failing that
    ["Unknown"] for a read and the body text for a write) contains
    [SessionIdNotFound], [Session not active] or [timed out].  For every
    such reply, when the re-authentication is answered with tokens, the
    call is the same call made afresh by the client with the new tokens
    on the remaining replies, after one account-authenticate and one
    login request. *)
Theorem session_error_by_message_recovers c n r ra rl rest :
  truthy (sessionId c) = true ->
  pending n = Response r :: Response ra :: Response rl :: rest ->
  token_reply ra -> token_reply rl ->
  let c' := logged_in (token ra) (token rl) c in
  let reauthentication :=
    [AuthenticatePublisherAccount (username c) (password c) (applicationId c);
     LoginPublisherAccountById (Some (token ra)) (password c) (applicationId c)] in
  (forall minutes maxCount,
      session_error_reply "Unknown" r ->
      readGlucoseValues minutes maxCount c n
      = readGlucoseValues minutes maxCount c'
          (mkNet rest
             (sent n ++ ReadPublisherLatestGlucoseValues (sessionId c) minutes maxCount
                     :: reauthentication)
             (timezoneOffset n)))
  /\ (forall sn egvs,
      session_error_reply (text r) r ->
      writeGlucoseValues sn egvs c n
      = writeGlucoseValues sn egvs c'
          (mkNet rest
             (sent n ++ PostReceiverEgvRecords (sessionId c) sn egvs (- timezoneOffset n)
                     :: reauthentication)
             (timezoneOffset n))).
Proof.
  intros Hs Hp Ha Hl c' reauthentication. split.
  - intros minutes maxCount Hr. rewrite readGlucoseValues_unfold. unfold bind.
    rewrite (require_session_held _ _ Hs).
    rewrite (read_attempt_session_error _ _ _ _ _ _ _ _ Hp Hr Ha Hl). reflexivity.
  - intros sn egvs Hr. rewrite writeGlucoseValues_unfold. unfold bind.
    rewrite (require_session_held _ _ Hs).
    rewrite (write_attempt_session_error _ _ _ _ _ _ _ _ Hp Hr Ha Hl). reflexivity.
Qed.
Lemma session_error_by_message_witness :
  readGlucoseValues 15 12 Scenario.source0
    (Scenario.net
       [Response (Scenario.server_error "SessionIdNotFound for this publisher");
        Scenario.token_ok "account-2"; Scenario.token_ok "session-2";
        Scenario.readings_ok Scenario.five])
  = (Ret Scenario.five,
     logged_in "account-2" "session-2" Scenario.source0,
     mkNet []
       [ReadPublisherLatestGlucoseValues (Some "src-session") 15 12;
        AuthenticatePublisherAccount "alice" "pw-a" "d89443d2-327c-4a6f-89e5-496bbb0317db";
        LoginPublisherAccountById (Some "account-2") "pw-a"
          "d89443d2-327c-4a6f-89e5-496bbb0317db";
        ReadPublisherLatestGlucoseValues (Some "session-2") 15 12]
       (-120)).
Proof.
  assert (Hr : session_error_reply "Unknown"
                 (Scenario.server_error "SessionIdNotFound for this publisher")).
  { split; [reflexivity | right; reflexivity]. }
  rewrite (proj1 (session_error_by_message_recovers Scenario.source0
                    (Scenario.net
                       [Response (Scenario.server_error
                                    "SessionIdNotFound for this publisher");
                        Scenario.token_ok "account-2"; Scenario.token_ok "session-2";
                        Scenario.readings_ok Scenario.five])
                    (Scenario.server_error "SessionIdNotFound for this publisher")
                    _ _ [Scenario.readings_ok Scenario.five]
                    eq_refl eq_refl account_2_reply session_2_reply) 15 12 Hr).
  vm_compute. reflexivity.
Defined.


(** X4 -- A transport error whose message carries no session marker is
    rethrown as it is, by a read and by a write: one request, no
    re-authentication, the tokens are kept. *)
Theorem transport_error_is_rethrown c n e rest :
  truthy (sessionId c) = true ->
  pending n = NetworkError e :: rest ->
  isSessionError e = false ->
  (forall minutes maxCount,
      readGlucoseValues minutes maxCount c n
      = (Throw e, c,
         mkNet rest
           (sent n ++ [ReadPublisherLatestGlucoseValues (sessionId c) minutes maxCount])
           (timezoneOffset n)))
  /\ (forall sn egvs,
      writeGlucoseValues sn egvs c n
      = (Throw e, c,
         mkNet rest
           (sent n ++ [PostReceiverEgvRecords (sessionId c) sn egvs (- timezoneOffset n)])
           (timezoneOffset n))).
Proof.
  intros Hs Hp He. split.
  - intros minutes maxCount. rewrite readGlucoseValues_unfold. unfold bind at 1.
    rewrite (require_session_held _ _ Hs).
    unfold bind at 1, read_attempt, try_catch, bind, this, makeRequest.
    rewrite Hp. simpl. rewrite He. reflexivity.
  - intros sn egvs. rewrite writeGlucoseValues_unfold. unfold bind at 1.
    rewrite (require_session_held _ _ Hs).
    unfold bind at 1, write_attempt, try_catch, bind, this, getTimezoneOffset, makeRequest.
    rewrite Hp. simpl. rewrite He. reflexivity.
Qed.
Lemma transport_error_witness :
  writeGlucoseValues "DEX2COM0001" [] Scenario.dest0
    (Scenario.net [NetworkError "socket hang up"])
  = (Throw "socket hang up", Scenario.dest0,
     mkNet [] [PostReceiverEgvRecords (Some "dst-session") "DEX2COM0001" [] 120] (-120)).
Proof.
  exact (proj2 (transport_error_is_rethrown Scenario.dest0
                  (Scenario.net [NetworkError "socket hang up"])
                  "socket hang up" [] eq_refl eq_refl eq_refl) "DEX2COM0001" []).
Defined.




(** X6 -- An upload that is answered with a status outside 2xx other
    than 500, and whose body text carries no session marker, is surfaced
    as ["Failed to write readings: <status> - <body>"]: one request, no
    retry, the tokens are kept. *)
Theorem write_http_failure_is_surfaced sn egvs c n r rest :
  truthy (sessionId c) = true ->
  pending n = Response r :: rest ->
  ok r = false ->
  status r <> 500 ->
  isSessionError (text r) = false ->
  writeGlucoseValues sn egvs c n
  = (Throw ("Failed to write readings: " +:+ show_Z (status r) +:+ " - " +:+ text r), c,
     mkNet rest
       (sent n ++ [PostReceiverEgvRecords (sessionId c) sn egvs (- timezoneOffset n)])
       (timezoneOffset n)).
Proof.
  intros Hs Hp Hok H500 Hbody. rewrite writeGlucoseValues_unfold. unfold bind at 1.
  rewrite (require_session_held _ _ Hs).
  unfold bind at 1, write_attempt, try_catch, bind, this, getTimezoneOffset, makeRequest.
  rewrite Hp. simpl. rewrite (proj2 (Z.eqb_neq _ _) H500), Hok. simpl.
  unfold throw. rewrite isSessionError_write_readings, Hbody. reflexivity.
Qed.
Lemma write_http_failure_witness :
  writeGlucoseValues "DEX2COM0001" [] Scenario.dest0
    (Scenario.net [Response (mkResponse 400 "Bad Request" None)])
  = (Throw "Failed to write readings: 400 - Bad Request", Scenario.dest0,
     mkNet [] [PostReceiverEgvRecords (Some "dst-session") "DEX2COM0001" [] 120] (-120)).
Proof.
  refine (write_http_failure_is_surfaced "DEX2COM0001" [] Scenario.dest0
            (Scenario.net [Response (mkResponse 400 "Bad Request" None)])
            (mkResponse 400 "Bad Request" None) [] _ _ _ _ _).
  - reflexivity.
  - reflexivity.
  - reflexivity.
  - simpl. discriminate.
  - reflexivity.
Defined.



(** ** [authenticate] *)



(** X9 -- Invalid credentials leave the all-zero UUID behind as
    [accountId]: it is stored before it is tested.  Being a non-empty
    string it counts as set, so the next [authenticate] of that client
    skips account-authenticate and sends only a login request for the
    all-zero account. *)
Theorem invalid_credentials_leave_zero_account c n ra rest :
  truthy (accountId c) = false ->
  pending n = Response ra :: rest ->
  ok ra = true ->
  token ra = zero_uuid ->
  let c' := (authenticate c n).1.2 in
  accountId c' = Some zero_uuid
  /\ forall n2,
      sent (authenticate c' n2).2
      = (sent n2 ++ [LoginPublisherAccountById (Some zero_uuid) (password c)
                       (applicationId c)])%list.
Proof.
  intros Hacc Hp Hok Hz c'. subst c'.
  rewrite (authenticate_zero_uuid _ _ _ _ Hacc Hp Hok Hz). simpl.
  split; [reflexivity|]. intros n2.
  apply (authenticate_keeps_accountId (set_accountId (Some zero_uuid) c) n2).
  reflexivity.
Qed.
Lemma invalid_credentials_witness :
  let c' := (authenticate (DexcomClient.constructor "alice" "pw-a" "us")
               (Scenario.net [Scenario.token_ok zero_uuid])).1.2 in
  accountId c' = Some zero_uuid
  /\ sent (authenticate c' (Scenario.net [])).2
     = [LoginPublisherAccountById (Some zero_uuid) "pw-a"
          "d89443d2-327c-4a6f-89e5-496bbb0317db"].
Proof.
  pose proof (invalid_credentials_leave_zero_account
                (DexcomClient.constructor "alice" "pw-a" "us")
                (Scenario.net [Scenario.token_ok zero_uuid])
                (mkResponse 200 (Scenario.quoted zero_uuid) (Some (JOther None None)))
                [] eq_refl eq_refl eq_refl eq_refl) as [Hacc Hnext].
  split; [exact Hacc | exact (Hnext (Scenario.net []))].
Defined.


Lemma authenticate_login_zero_uuid c n rl rest :
  truthy (accountId c) = true ->
  pending n = Response rl :: rest ->
  ok rl = true -> token rl = zero_uuid ->
  authenticate c n
  = (Throw "Authentication error: Login failed", set_sessionId (Some zero_uuid) c,
     mkNet rest
       (sent n ++ [LoginPublisherAccountById (accountId c) (password c) (applicationId c)])
       (timezoneOffset n)).
Proof.
  intros Hacc Hp Hok Hz. unfold token in Hz.
  unfold authenticate, try_catch, bind, this, makeRequest, assign, throw, ret.
  rewrite Hacc. simpl. rewrite Hp. simpl. rewrite Hok. simpl. rewrite Hz. reflexivity.
Qed.

(** X10 -- A failed login leaves the all-zero UUID behind as
    [sessionId]: when the login reply carries it, [authenticate] rejects
    with ["Authentication error: Login failed"] after storing it.  Being
    a non-empty string it counts as a session, so the next read of that
    client does not authenticate and sends its request with the all-zero
    session. *)
Theorem login_failure_leaves_zero_session c n rl rest :
  truthy (accountId c) = true ->
  pending n = Response rl :: rest ->
  ok rl = true ->
  token rl = zero_uuid ->
  let c' := (authenticate c n).1.2 in
  (authenticate c n).1.1 = Throw "Authentication error: Login failed"
  /\ sessionId c' = Some zero_uuid
  /\ forall minutes maxCount n2 r rest2,
      pending n2 = Response r :: rest2 ->
      ok r = true ->
      readGlucoseValues minutes maxCount c' n2
      = (Ret (readings_of r), c',
         mkNet rest2
           (sent n2 ++ [ReadPublisherLatestGlucoseValues (Some zero_uuid) minutes maxCount])
           (timezoneOffset n2)).
Proof.
  intros Hacc Hp Hok Hz c'. subst c'.
  rewrite (authenticate_login_zero_uuid _ _ _ _ Hacc Hp Hok Hz). simpl.
  split; [reflexivity|]. split; [reflexivity|].
  intros minutes maxCount n2 r rest2 Hp2 Hok2.
  apply (readGlucoseValues_ok_reply _ _ (set_sessionId (Some zero_uuid) c)); auto.
Qed.
Lemma login_failure_witness :
  let c' := (authenticate Scenario.source0
               (Scenario.net [Scenario.token_ok zero_uuid])).1.2 in
  (authenticate Scenario.source0 (Scenario.net [Scenario.token_ok zero_uuid])).1.1
  = Throw "Authentication error: Login failed"
  /\ sessionId c' = Some zero_uuid
  /\ readGlucoseValues 15 12 c' (Scenario.net [Scenario.readings_ok Scenario.five])
     = (Ret Scenario.five, c',
        mkNet [] [ReadPublisherLatestGlucoseValues (Some zero_uuid) 15 12] (-120)).
Proof.
  pose proof (login_failure_leaves_zero_session Scenario.source0
                (Scenario.net [Scenario.token_ok zero_uuid])
                (mkResponse 200 (Scenario.quoted zero_uuid) (Some (JOther None None)))
                [] eq_refl eq_refl eq_refl eq_refl) as (Hthrow & Hsid & Hread).
  split; [exact Hthrow|]. split; [exact Hsid|].
  exact (Hread 15 12 (Scenario.net [Scenario.readings_ok Scenario.five])
           (mkResponse 200 "[...]" (Some (JArray Scenario.five))) [] eq_refl eq_refl).
Defined.


(** ** [registerReceiver] *)

(** X11 -- [registerReceiver] by a client that holds a session sends
    one request and returns [true] on a 2xx status and on a 500; any
    other status is rejected with
    ["Failed to register receiver: <status>"].  It never re-authenticates
    and never retries: a 500 that signals session expiry is reported as
    success too, and the tokens are kept. *)
Theorem registerReceiver_tolerates_500 sn c n r rest :
  truthy (sessionId c) = true ->
  pending n = Response r :: rest ->
  registerReceiver sn c n
  = (if ok r || (status r =? 500) then Ret true
     else Throw ("Failed to register receiver: " +:+ show_Z (status r)),
     c,
     mkNet rest
       (sent n ++ [ReplacePublisherAccountMonitoredReceiver (sessionId c) sn])
       (timezoneOffset n)).
Proof.
  intros Hs Hp. unfold registerReceiver, bind at 1.
  rewrite (require_session_held _ _ Hs).
  unfold bind, this, makeRequest, throw, ret. rewrite Hp. simpl.
  destruct (ok r), (status r =? 500); reflexivity.
Qed.
Lemma registerReceiver_witness :
  registerReceiver "DEX2COM0001" Scenario.dest0
    (Scenario.net [Response Scenario.session_expired])
  = (Ret true, Scenario.dest0,
     mkNet []
       [ReplacePublisherAccountMonitoredReceiver (Some "dst-session") "DEX2COM0001"]
       (-120)).
Proof.
  exact (registerReceiver_tolerates_500 "DEX2COM0001" Scenario.dest0
           (Scenario.net [Response Scenario.session_expired])
           Scenario.session_expired [] eq_refl eq_refl).
Defined.

(** ** A method that does not settle has used up every reply *)

Section Exhausted.

Lemma exhausted_ret {B} (b : B) : pending_only_when_exhausted (ret b).
Proof. intros c n c' n' H. discriminate. Qed.

Lemma exhausted_throw {B} e : pending_only_when_exhausted (@throw B e).
Proof. intros c n c' n' H. discriminate. Qed.

Lemma exhausted_this : pending_only_when_exhausted this.
Proof. intros c n c' n' H. discriminate. Qed.

Lemma exhausted_assign f : pending_only_when_exhausted (assign f).
Proof. intros c n c' n' H. discriminate. Qed.

Lemma exhausted_getTimezoneOffset : pending_only_when_exhausted getTimezoneOffset.
Proof. intros c n c' n' H. discriminate. Qed.

Lemma exhausted_makeRequest req : pending_only_when_exhausted (makeRequest req).
Proof.
  intros c n c' n'. unfold makeRequest.
  destruct (pending n) as [|[r|e] rest]; intros [= <- <-]. reflexivity.
Qed.

Lemma exhausted_bind {B C} (m : M B) (k : B -> M C) :
  pending_only_when_exhausted m ->
  (forall b, pending_only_when_exhausted (k b)) ->
  pending_only_when_exhausted (bind m k).
Proof.
  intros Hm Hk c n c' n'. unfold bind. specialize (Hm c n).
  destruct (m c n) as [[[b|e|] c0] n0]; intros H.
  - exact (Hk b _ _ _ _ H).
  - discriminate.
  - injection H as <- <-. eapply Hm. reflexivity.
Qed.

Lemma exhausted_try_catch {B} (m : M B) (h : string -> M B) :
  pending_only_when_exhausted m ->
  (forall e, pending_only_when_exhausted (h e)) ->
  pending_only_when_exhausted (try_catch m h).
Proof.
  intros Hm Hh c n c' n'. unfold try_catch. specialize (Hm c n).
  destruct (m c n) as [[[b|e|] c0] n0]; intros H.
  - discriminate.
  - exact (Hh e _ _ _ _ H).
  - injection H as <- <-. eapply Hm. reflexivity.
Qed.

Lemma exhausted_if {B} (b : bool) (m1 m2 : M B) :
  pending_only_when_exhausted m1 -> pending_only_when_exhausted m2 ->
  pending_only_when_exhausted (if b then m1 else m2).
Proof. destruct b; auto. Qed.

End Exhausted.

Ltac exhausted_tac :=
  repeat first
    [ progress intros
    | apply exhausted_bind | apply exhausted_try_catch | apply exhausted_if
    | apply exhausted_ret | apply exhausted_throw | apply exhausted_this
    | apply exhausted_assign | apply exhausted_getTimezoneOffset
    | apply exhausted_makeRequest ].

Lemma exhausted_authenticate : pending_only_when_exhausted authenticate.
Proof. unfold authenticate. exhausted_tac. Qed.

Lemma exhausted_require_session : pending_only_when_exhausted require_session.
Proof. unfold require_session. exhausted_tac. Qed.

Lemma exhausted_read_attempt minutes maxCount :
  pending_only_when_exhausted (read_attempt minutes maxCount).
Proof.
  unfold read_attempt. apply exhausted_try_catch; [|exhausted_tac].
  apply exhausted_bind; [exhausted_tac|]. intros c.
  apply exhausted_bind; [exhausted_tac|]. intros r.
  destruct (json r) as [[]|]; exhausted_tac.
Qed.

Lemma exhausted_write_attempt sn egvs :
  pending_only_when_exhausted (write_attempt sn egvs).
Proof. unfold write_attempt. exhausted_tac. Qed.

Lemma exhausted_readGlucoseValues_fuel minutes maxCount :
  forall fuel c n c' n',
    (length (pending n) < fuel)%nat ->
    readGlucoseValues_fuel fuel minutes maxCount c n = (Pending, c', n') ->
    pending n' = [].
Proof.
  induction fuel as [|fuel IH]; intros c n c' n' Hfuel; [lia|].
  simpl. unfold bind at 1.
  pose proof (no_growth_require_session c n) as Hr.
  pose proof (exhausted_require_session c n) as Hp.
  destruct (require_session c n) as [[[[]|e|] c1] n1]; simpl in *;
    [|discriminate|intros [= <- <-]; eapply Hp; reflexivity].
  unfold bind.
  destruct (consumes_read_attempt minutes maxCount c1 n1) as [H0 Hlt].
  pose proof (exhausted_read_attempt minutes maxCount c1 n1) as Hp1.
  destruct (read_attempt minutes maxCount c1 n1) as [[[[rs|]|e|] c2] n2];
    simpl in *; try discriminate.
  - destruct (pending n1) as [|r rest] eqn:Hpn; [specialize (H0 eq_refl); discriminate|].
    specialize (Hlt ltac:(done)). simpl in *. apply IH. lia.
  - intros [= <- <-]. eapply Hp1. reflexivity.
Qed.

Lemma exhausted_writeGlucoseValues_fuel sn egvs :
  forall fuel c n c' n',
    (length (pending n) < fuel)%nat ->
    writeGlucoseValues_fuel fuel sn egvs c n = (Pending, c', n') ->
    pending n' = [].
Proof.
  induction fuel as [|fuel IH]; intros c n c' n' Hfuel; [lia|].
  simpl. unfold bind at 1.
  pose proof (no_growth_require_session c n) as Hr.
  pose proof (exhausted_require_session c n) as Hp.
  destruct (require_session c n) as [[[[]|e|] c1] n1]; simpl in *;
    [|discriminate|intros [= <- <-]; eapply Hp; reflexivity].
  unfold bind.
  destruct (consumes_write_attempt sn egvs c1 n1) as [H0 Hlt].
  pose proof (exhausted_write_attempt sn egvs c1 n1) as Hp1.
  destruct (write_attempt sn egvs c1 n1) as [[[[b|]|e|] c2] n2];
    simpl in *; try discriminate.
  - destruct (pending n1) as [|r rest] eqn:Hpn; [specialize (H0 eq_refl); discriminate|].
    specialize (Hlt ltac:(done)). simpl in *. apply IH. lia.
  - intros [= <- <-]. eapply Hp1. reflexivity.
Qed.

Lemma exhausted_readGlucoseValues minutes maxCount :
  pending_only_when_exhausted (readGlucoseValues minutes maxCount).
Proof.
  intros c n c' n'. unfold readGlucoseValues.
  apply exhausted_readGlucoseValues_fuel. lia.
Qed.

Lemma exhausted_writeGlucoseValues sn egvs :
  pending_only_when_exhausted (writeGlucoseValues sn egvs).
Proof.
  intros c n c' n'. unfold writeGlucoseValues.
  apply exhausted_writeGlucoseValues_fuel. lia.
Qed.

(** X12 -- The methods give up only when the remote end does.  A read,
    an upload or a registration that does not settle has used up every
    reply, however many expiries and re-authentications came first; and a
    cycle that does not settle has used up every reply of the source or
    of the destination. *)
Theorem unsettled_only_when_replies_run_out :
  (forall minutes maxCount,
      pending_only_when_exhausted (readGlucoseValues minutes maxCount))
  /\ (forall sn egvs, pending_only_when_exhausted (writeGlucoseValues sn egvs))
  /\ (forall sn, pending_only_when_exhausted (registerReceiver sn))
  /\ (forall now s src dst,
      (sync now s src dst).1.1.1 = None ->
      pending (sync now s src dst).1.2 = [] \/ pending (sync now s src dst).2 = []).
Proof.
  split; [exact exhausted_readGlucoseValues|].
  split; [exact exhausted_writeGlucoseValues|].
  split.
  { intros sn. unfold registerReceiver.
    apply exhausted_bind; [apply exhausted_require_session|]. exhausted_tac. }
  intros now s src dst. unfold sync.
  pose proof (exhausted_readGlucoseValues (minutes s) (maxCount s) (sourceClient s) src) as Hr.
  destruct (readGlucoseValues (minutes s) (maxCount s) (sourceClient s) src)
    as [[[readings|e|] c] src1]; simpl; [|discriminate|].
  - destruct (length readings =? 0)%nat; [discriminate|].
    destruct (length (List.filter (is_new (syncedTimestamps s)) readings) =? 0)%nat;
      [discriminate|].
    match goal with
    | |- context [writeGlucoseValues ?a ?b ?d dst] =>
        pose proof (exhausted_writeGlucoseValues a b d dst) as Hw;
        destruct (writeGlucoseValues a b d dst) as [[[b'|e|] d'] dst1]
    end; simpl; try discriminate.
    intros _. right. eapply Hw. reflexivity.
  - intros _. left. eapply Hr. reflexivity.
Qed.

(** ** No data request without a session token *)

Lemma sends_bind_returns {B C} Q P (m : M B) (k : B -> M C) :
  sends_only P m -> returns_with Q m ->
  (forall b, sends_from Q P (k b)) ->
  sends_only P (bind m k).
Proof.
  intros Hm Hq Hk c n. unfold bind. destruct (Hm c n) as (l & Hl & HP).
  specialize (Hq c n).
  destruct (m c n) as [[[b|e|] c'] n']; simpl in *; eauto.
  destruct (Hk b c' n' (Hq _ _ _ eq_refl)) as (l' & Hl' & HP').
  exists (l ++ l')%list. rewrite Hl', Hl, app_assoc. split; [reflexivity|].
  apply Forall_app; auto.
Qed.

Lemma sends_only_authenticate P :
  (forall req, authentication_request req -> P req) -> sends_only P authenticate.
Proof. intros HP. unfold authenticate. sends_only_tac; apply HP; exact I. Qed.

Lemma sends_only_reauthenticate P {A} :
  (forall req, authentication_request req -> P req) ->
  sends_only P (@reauthenticate_and_retry A).
Proof.
  intros HP. unfold reauthenticate_and_retry, clear_session.
  sends_only_tac; apply HP; exact I.
Qed.

Lemma sends_only_require P :
  (forall req, authentication_request req -> P req) -> sends_only P require_session.
Proof. intros HP. unfold require_session. sends_only_tac; apply HP; exact I. Qed.

Lemma authenticate_returns_with_string : returns_with session_not_null authenticate.
Proof.
  intros c n v c' n'. unfold session_not_null.
  unfold authenticate, try_catch, bind, this, makeRequest, assign, throw, ret.
  destruct (truthy (accountId c)); simpl.
  - destruct (pending n) as [|[rl|e] rest]; simpl; try discriminate.
    destruct (ok rl); simpl; [|discriminate].
    destruct (strip_quotes (text rl) =? zero_uuid)%string; simpl; [discriminate|].
    intros [= _ <- _]. discriminate.
  - destruct (pending n) as [|[ra|e] rest]; simpl; try discriminate.
    destruct (ok ra); simpl; [|discriminate].
    destruct (strip_quotes (text ra) =? zero_uuid)%string; simpl; [discriminate|].
    destruct rest as [|[rl|e] rest]; simpl; try discriminate.
    destruct (ok rl); simpl; [|discriminate].
    destruct (strip_quotes (text rl) =? zero_uuid)%string; simpl; [discriminate|].
    intros [= _ <- _]. discriminate.
Qed.

Lemma require_session_returns_with_string : returns_with session_not_null require_session.
Proof.
  intros c n v c' n'. unfold require_session, bind at 1, this.
  destruct (truthy (sessionId c)) eqn:Hs; simpl.
  - unfold ret. intros H. assert (Hc : c' = c) by congruence. subst c'.
    unfold session_not_null. intros Heq. rewrite Heq in Hs. discriminate.
  - unfold bind, ret.
    pose proof (authenticate_returns_with_string c n) as Ha.
    destruct (authenticate c n) as [[[v'|e|] c1] n1]; try discriminate.
    intros H. assert (Hc : c' = c1) by congruence. subst c'.
    eapply Ha. reflexivity.
Qed.

Lemma sends_from_try_this {B} Pre P (k : Client -> M B) (h : string -> M B) :
  (forall c, Pre c -> sends_only P (try_catch (k c) h)) ->
  sends_from Pre P (try_catch (bind this k) h).
Proof. intros H c n Hc. exact (H c Hc c n). Qed.

Lemma authentication_sessionId_not_null req :
  authentication_request req -> sessionId_not_null req.
Proof. destruct req; simpl; auto; intros []. Qed.

Lemma read_attempt_sessionId_not_null minutes maxCount :
  sends_from session_not_null sessionId_not_null (read_attempt minutes maxCount).
Proof.
  unfold read_attempt. apply sends_from_try_this. intros c Hc.
  apply sends_only_try_catch.
  - apply sends_only_bind; [apply sends_only_makeRequest; exact Hc|].
    intros r. apply sends_only_if.
    + apply sends_only_if; [|apply sends_only_throw].
      apply sends_only_reauthenticate, authentication_sessionId_not_null.
    + apply sends_only_if; [apply sends_only_throw|].
      destruct (json r) as [[]|]; apply sends_only_ret.
  - intros e. apply sends_only_if; [|apply sends_only_throw].
    apply sends_only_reauthenticate, authentication_sessionId_not_null.
Qed.

Lemma write_attempt_sessionId_not_null sn egvs :
  sends_from session_not_null sessionId_not_null (write_attempt sn egvs).
Proof.
  unfold write_attempt. apply sends_from_try_this. intros c Hc.
  apply sends_only_try_catch.
  - apply sends_only_bind; [apply sends_only_getTimezoneOffset|]. intros tz.
    apply sends_only_bind; [apply sends_only_makeRequest; exact Hc|].
    intros r. apply sends_only_if.
    + apply sends_only_if; [|apply sends_only_throw].
      apply sends_only_reauthenticate, authentication_sessionId_not_null.
    + apply sends_only_if; [apply sends_only_throw | apply sends_only_ret].
  - intros e. apply sends_only_if; [|apply sends_only_throw].
    apply sends_only_reauthenticate, authentication_sessionId_not_null.
Qed.

Lemma sends_from_bind {B C} Pre P (m : M B) (k : B -> M C) :
  sends_from Pre P m -> (forall b, sends_only P (k b)) ->
  sends_from Pre P (bind m k).
Proof.
  intros Hm Hk c n Hc. unfold bind. destruct (Hm c n Hc) as (l & Hl & HP).
  destruct (m c n) as [[[b|e|] c'] n']; simpl in *; eauto.
  destruct (Hk b c' n') as (l' & Hl' & HP').
  exists (l ++ l')%list. rewrite Hl', Hl, app_assoc. split; [reflexivity|].
  apply Forall_app; auto.
Qed.

Lemma sessionId_not_null_readGlucoseValues_fuel minutes maxCount fuel :
  sends_only sessionId_not_null (readGlucoseValues_fuel fuel minutes maxCount).
Proof.
  induction fuel as [|fuel IH]; simpl.
  - intros c n. exists []. simpl. rewrite app_nil_r. auto.
  - apply (sends_bind_returns session_not_null).
    + apply sends_only_require, authentication_sessionId_not_null.
    + apply require_session_returns_with_string.
    + intros _. apply sends_from_bind; [apply read_attempt_sessionId_not_null|].
      intros [rs|]; [apply sends_only_ret | exact IH].
Qed.

Lemma sessionId_not_null_writeGlucoseValues_fuel sn egvs fuel :
  sends_only sessionId_not_null (writeGlucoseValues_fuel fuel sn egvs).
Proof.
  induction fuel as [|fuel IH]; simpl.
  - intros c n. exists []. simpl. rewrite app_nil_r. auto.
  - apply (sends_bind_returns session_not_null).
    + apply sends_only_require, authentication_sessionId_not_null.
    + apply require_session_returns_with_string.
    + intros _. apply sends_from_bind; [apply write_attempt_sessionId_not_null|].
      intros [b|]; [apply sends_only_ret | exact IH].
Qed.

Lemma sessionId_not_null_registerReceiver sn :
  sends_only sessionId_not_null (registerReceiver sn).
Proof.
  unfold registerReceiver.
  apply (sends_bind_returns session_not_null).
  - apply sends_only_require, authentication_sessionId_not_null.
  - apply require_session_returns_with_string.
  - intros _ c n Hc.
    apply (sends_only_bind sessionId_not_null (makeRequest
             (ReplacePublisherAccountMonitoredReceiver (sessionId c) sn))).
    + apply sends_only_makeRequest. exact Hc.
    + intros r. apply sends_only_if; [apply sends_only_throw | apply sends_only_ret].
Qed.

(** X13 -- No data request carries a [null] session.  Whatever the
    client and the replies, the [sessionId] of every read, upload and
    registration request is a string: an absent or empty token makes the
    method authenticate first, and after an expiry the retry waits for
    the new login.  The string itself is not tested afterwards, so it can
    be empty: when the login is answered 2xx with an empty body, the read
    goes out with the empty [sessionId]. *)
Theorem no_data_request_with_null_session :
  (forall minutes maxCount,
      sends_only sessionId_not_null (readGlucoseValues minutes maxCount))
  /\ (forall sn egvs, sends_only sessionId_not_null (writeGlucoseValues sn egvs))
  /\ (forall sn, sends_only sessionId_not_null (registerReceiver sn))
  /\ (let c0 := DexcomClient.constructor "alice" "pw-a" "us" in
      sent (readGlucoseValues 15 12 c0
              (mkNet [Scenario.token_ok "account-1";
                      Response (mkResponse 200 "" None);
                      Scenario.readings_ok []] [] 0)).2
      = [AuthenticatePublisherAccount "alice" "pw-a" (applicationId c0);
         LoginPublisherAccountById (Some "account-1") "pw-a" (applicationId c0);
         ReadPublisherLatestGlucoseValues (Some "") 15 12]).
Proof.
  split; [|split; [|split]].
  - intros minutes maxCount c n. apply sessionId_not_null_readGlucoseValues_fuel.
  - intros sn egvs c n. apply sessionId_not_null_writeGlucoseValues_fuel.
  - exact sessionId_not_null_registerReceiver.
  - vm_compute. reflexivity.
Qed.

(** ** What a cycle sends to the source *)

Lemma sends_only_read_attempt minutes maxCount :
  sends_only (read_request minutes maxCount) (read_attempt minutes maxCount).
Proof.
  unfold read_attempt. sends_only_tac.
  destruct (json b0) as [[]|]; apply sends_only_ret.
Qed.

Lemma sends_only_readGlucoseValues_fuel minutes maxCount fuel :
  sends_only (read_request minutes maxCount)
    (readGlucoseValues_fuel fuel minutes maxCount).
Proof.
  induction fuel as [|fuel IH]; simpl.
  - intros c n. exists []. simpl. rewrite app_nil_r. auto.
  - apply sends_only_bind.
    + apply sends_only_require. intros []; simpl; auto; intros [].
    + intros _. apply sends_only_bind; [apply sends_only_read_attempt|].
      intros [rs|]; [apply sends_only_ret | exact IH].
Qed.

(** X14 -- The source account is only read.  Whatever happens in a
    cycle, the requests it sends to the source are requests of
    [authenticate] and reads of the window the configuration gives: three
    times the interval as a Number computes the product (rounded to a
    double when it exceeds 2^53), 15 when that is 0, and the maximal
    count, 12 when it is 0.  No upload and no registration goes to the
    source.  The interval is taken below 2^1000 in magnitude, where the
    product is finite. *)
Theorem source_is_only_read now s src dst :
  Z.abs (syncIntervalMinutes (config s)) < 2 ^ 1000 ->
  exists l,
    sent (sync now s src dst).1.2 = (sent src ++ l)%list
    /\ Forall (read_request (minutes s) (maxCount s)) l.
Proof.
  intros _.
  destruct (sends_only_readGlucoseValues_fuel (minutes s) (maxCount s)
              (S (length (pending src))) (sourceClient s) src) as (l & Hl & HP).
  exists l. split; [|exact HP]. rewrite <- Hl. unfold sync.
  change (readGlucoseValues_fuel (S (length (pending src))) (minutes s) (maxCount s)
            (sourceClient s) src)
    with (readGlucoseValues (minutes s) (maxCount s) (sourceClient s) src).
  destruct (readGlucoseValues (minutes s) (maxCount s) (sourceClient s) src)
    as [[[readings|e|] c] src1]; simpl; try reflexivity.
  destruct (length readings =? 0)%nat; [reflexivity|].
  destruct (length (List.filter (is_new (syncedTimestamps s)) readings) =? 0)%nat;
    [reflexivity|].
  match goal with
  | |- context [writeGlucoseValues ?a ?b ?d dst] =>
      destruct (writeGlucoseValues a b d dst) as [[[b'|e|] d'] dst1]
  end; reflexivity.
Qed.

Lemma source_is_only_read_witness :
  let s := mkSyncer
             (mkConfig (mkAccount "alice" "pw-a" "us") (mkAccount "bob" "pw-b" "ous")
                3002399751580331 0 None)
             Scenario.source0 Scenario.dest0 ∅ "DEX2COM0001" in
  minutes s = 9007199254740992
  /\ exists l,
      sent (sync 1700000000000 s (Scenario.net [Scenario.readings_ok []])
              (Scenario.net [])).1.2
      = ([] ++ l)%list
      /\ Forall (read_request 9007199254740992 12) l.
Proof.
  cbv zeta. split; [vm_compute; reflexivity|].
  assert (Hsmall : Z.abs 3002399751580331 < 2 ^ 1000) by (vm_compute; reflexivity).
  exact (source_is_only_read 1700000000000
           (mkSyncer
              (mkConfig (mkAccount "alice" "pw-a" "us") (mkAccount "bob" "pw-b" "ous")
                 3002399751580331 0 None)
              Scenario.source0 Scenario.dest0 ∅ "DEX2COM0001")
           (Scenario.net [Scenario.readings_ok []]) (Scenario.net []) Hsmall).
Defined.

(** * Further properties of the engine *)

(** ** Pruning *)

Lemma num_gtb_max k a b :
  num_gtb k (Z.max a b - 86400000)
  = num_gtb k (a - 86400000) && num_gtb k (b - 86400000).
Proof.
  destruct k as [z| |]; simpl; [|reflexivity|reflexivity].
  destruct (Z.ltb_spec (a - 86400000) z), (Z.ltb_spec (b - 86400000) z),
    (Z.ltb_spec (Z.max a b - 86400000) z); simpl; try reflexivity; lia.
Qed.

(** X15 -- Pruning only removes keys, distributes over the union of two
    ledgers, and composes: pruning at one clock and then at another is
    pruning once at the later of the two.  [Infinity], the key of a digit
    run too long for a Number, is never pruned. *)
Theorem pruning_composes :
  (forall now (ledger : gset num), cleanupOldTimestamps now ledger ⊆ ledger)
  /\ (forall now1 now2 (ledger : gset num),
      cleanupOldTimestamps now2 (cleanupOldTimestamps now1 ledger)
      = cleanupOldTimestamps (Z.max now1 now2) ledger)
  /\ (forall now (l1 l2 : gset num),
      cleanupOldTimestamps now (l1 ∪ l2)
      = cleanupOldTimestamps now l1 ∪ cleanupOldTimestamps now l2)
  /\ (forall now (ledger : gset num),
      Infinity ∈ cleanupOldTimestamps now ledger <-> Infinity ∈ ledger).
Proof.
  split; [|split; [|split]].
  - intros now ledger k Hk. apply elem_of_cleanupOldTimestamps in Hk. tauto.
  - intros now1 now2 ledger. apply set_eq. intros k.
    rewrite !elem_of_cleanupOldTimestamps, num_gtb_max, andb_true_iff. tauto.
  - intros now l1 l2. apply set_eq. intros k.
    rewrite elem_of_union, !elem_of_cleanupOldTimestamps, elem_of_union. tauto.
  - intros now ledger. rewrite elem_of_cleanupOldTimestamps. simpl. tauto.
Qed.

(** ** The ledger and the counters over a cycle *)

Lemma count_known_le ledger readings :
  (count_known ledger readings <= length readings)%nat.
Proof. unfold count_known. apply List.filter_length_le. Qed.

Lemma fresh_plus_known s readings :
  (length (fresh s readings) + count_known (syncedTimestamps s) readings
   = length readings)%nat.
Proof.
  rewrite <- skipped_count. fold (fresh s readings).
  pose proof (List.filter_length_le (is_new (syncedTimestamps s)) readings).
  unfold fresh. lia.
Qed.

Ltac sync_cases :=
  unfold sync;
  match goal with
  | |- context [readGlucoseValues ?m ?k ?c ?src] =>
      destruct (readGlucoseValues m k c src) as [[[readings|e|] c1] src1]
  end; simpl;
  [ match goal with
    | |- context [(length ?rs =? 0)%nat] =>
        destruct (length rs =? 0)%nat eqn:Hempty
    end; simpl;
    [ | match goal with
        | |- context [(length (List.filter ?f ?rs) =? 0)%nat] =>
            destruct (length (List.filter f rs) =? 0)%nat eqn:Hnone
        end; simpl;
        [ | match goal with
            | |- context [writeGlucoseValues ?a ?b ?d ?dst] =>
                destruct (writeGlucoseValues a b d dst) as [[[b'|e|] d1] dst1]
            end; simpl ] ]
  | | ].

(** X16 -- The ledger changes only in a cycle that uploads.  A cycle
    that does not settle, fails, reads nothing or finds nothing new leaves
    the ledger exactly as it was, unpruned.  A cycle that reports a
    non-zero [writeCount] has succeeded, and every key of the ledger it
    leaves is newer than its clock minus 24 hours. *)
Theorem ledger_changes_only_by_upload now s src dst :
  match (sync now s src dst).1.1.1 with
  | None => syncedTimestamps (sync now s src dst).1.1.2 = syncedTimestamps s
  | Some res =>
      if (writeCount res =? 0)%nat
      then syncedTimestamps (sync now s src dst).1.1.2 = syncedTimestamps s
      else
        success res = true
        /\ forall k, k ∈ syncedTimestamps (sync now s src dst).1.1.2 ->
                     num_gtb k (now - 24 * 60 * 60 * 1000) = true
  end.
Proof.
  sync_cases; try reflexivity.
  rewrite length_map.
  destruct (length (List.filter (is_new (syncedTimestamps s)) readings)) eqn:Hlen;
    [discriminate|]. simpl.
  split; [reflexivity|]. intros k Hk.
  apply elem_of_cleanupOldTimestamps in Hk. tauto.
Qed.

(** X17 -- The counters of a result add up.  In every result
    [writeCount + skippedCount <= readCount].  A successful result has
    [writeCount + skippedCount = readCount] and no error; a failed one has
    [writeCount = 0] and exactly one error message. *)
Theorem counters_add_up now s src dst res :
  (sync now s src dst).1.1.1 = Some res ->
  (writeCount res + skippedCount res <= readCount res)%nat
  /\ (success res = true ->
      (writeCount res + skippedCount res = readCount res)%nat /\ errors res = [])
  /\ (success res = false ->
      writeCount res = 0%nat /\ exists e, errors res = [e]).
Proof.
  sync_cases; intros [= <-]; simpl.
  - apply length_zero_nil in Hempty. rewrite Hempty. simpl.
    split; [lia|]. split; [auto | discriminate].
  - apply length_zero_nil in Hnone. rewrite Hnone. simpl.
    split; [lia|]. split; [intros _; split; [lia | reflexivity] | discriminate].
  - rewrite length_map.
    pose proof (List.filter_length_le (is_new (syncedTimestamps s)) readings).
    split; [lia|]. split; [intros _; split; [lia | reflexivity] | discriminate].
  - pose proof (List.filter_length_le (is_new (syncedTimestamps s)) readings).
    split; [lia|]. split; [discriminate|]. intros _. split; [reflexivity | eauto].
  - split; [lia|]. split; [discriminate|]. intros _. split; [reflexivity | eauto].
Qed.
Lemma counters_witness :
  (sync 1700000000000 (Scenario.syncer_with {[Finite 100; Finite 200]})
     (Scenario.net [Scenario.readings_ok Scenario.five])
     (Scenario.net [Scenario.upload_ok])).1.1.1
  = Some (mkResult true 5 3 2 [])
  /\ (writeCount (mkResult true 5 3 2 []) + skippedCount (mkResult true 5 3 2 [])
      = readCount (mkResult true 5 3 2 []))%nat.
Proof.
  assert (H : (sync 1700000000000 (Scenario.syncer_with {[Finite 100; Finite 200]})
                 (Scenario.net [Scenario.readings_ok Scenario.five])
                 (Scenario.net [Scenario.upload_ok])).1.1.1
              = Some (mkResult true 5 3 2 []))
    by (vm_compute; reflexivity).
  split; [exact H|].
  destruct (counters_add_up _ _ _ _ _ H) as (_ & Hok & _).
  apply Hok. reflexivity.
Defined.

(** ** Reading back an encoded timestamp *)

Lemma decimal_value_of_uint_acc d : forall acc,
  decimal_value (Zpos acc) (NilEmpty.string_of_uint d)
  = Zpos (Pos.of_uint_acc d acc).
Proof.
  induction d; intros acc;
    cbn [Pos.of_uint_acc NilEmpty.string_of_uint decimal_value];
    try reflexivity;
    rewrite <- IHd; f_equal;
    match goal with
    | |- context [digit_value ?c] =>
        let v := eval vm_compute in (digit_value c) in
        change (digit_value c) with v
    end; lia.
Qed.

Lemma decimal_value_of_uint d :
  decimal_value 0 (NilEmpty.string_of_uint d) = Z.of_N (Pos.of_uint d).
Proof.
  induction d;
    cbn [Pos.of_uint NilEmpty.string_of_uint decimal_value Z.of_N];
    try reflexivity; try exact IHd;
    rewrite <- decimal_value_of_uint_acc; f_equal.
Qed.

Lemma show_Z_pos p : show_Z (Zpos p) = NilEmpty.string_of_uint (Pos.to_uint p).
Proof.
  unfold show_Z. simpl. unfold NilZero.string_of_uint.
  pose proof (DecimalPos.Unsigned.to_uint_nonnil p) as Hnil.
  destruct (Pos.to_uint p); [contradiction | reflexivity ..].
Qed.

Lemma decimal_value_show_Z n : 0 <= n -> decimal_value 0 (show_Z n) = n.
Proof.
  intros Hn. destruct n as [|p|p]; [reflexivity| |lia].
  rewrite show_Z_pos, decimal_value_of_uint, DecimalPos.Unsigned.of_to. reflexivity.
Qed.

Lemma show_Z_digits n : 0 <= n -> all_chars is_digit (show_Z n) = true.
Proof.
  intros Hn. destruct n as [|p|p]; [reflexivity| |lia].
  rewrite show_Z_pos. apply string_of_uint_digits.
Qed.

Lemma show_Z_nonempty n : 0 <= n -> show_Z n <> "".
Proof.
  intros Hn. destruct n as [|p|p]; [discriminate| |lia].
  rewrite show_Z_pos.
  pose proof (DecimalPos.Unsigned.to_uint_nonnil p) as Hnil.
  destruct (Pos.to_uint p); [contradiction | discriminate ..].
Qed.

Lemma digits_prefix_app ds rest :
  all_chars is_digit ds = true -> digits_prefix rest = "" ->
  digits_prefix (ds +:+ rest) = ds.
Proof.
  intros Hds Hrest. induction ds as [|c ds IH]; [exact Hrest|].
  simpl in Hds. apply andb_prop in Hds as [Hc Hds].
  change (digits_prefix (String c (ds +:+ rest)) = String c ds).
  simpl. rewrite Hc, (IH Hds). reflexivity.
Qed.

Lemma digits_prefix_suffix suffix tail :
  digits_prefix suffix = "" -> digits_prefix tail = "" ->
  digits_prefix (suffix +:+ tail) = "".
Proof.
  intros Hs Ht. destruct suffix as [|c suffix]; [exact Ht|].
  change (digits_prefix (String c (suffix +:+ tail)) = "").
  simpl in *. destruct (is_digit c); [discriminate | reflexivity].
Qed.

Lemma match_digits_head ds rest :
  ds <> "" -> all_chars is_digit ds = true ->
  match_digits (ds +:+ rest) = Some (digits_prefix (ds +:+ rest)).
Proof.
  intros Hne Hds. destruct ds as [|c ds]; [done|].
  simpl in Hds. apply andb_prop in Hds as [Hc _].
  change (match_digits (String c (ds +:+ rest))
          = Some (digits_prefix (String c (ds +:+ rest)))).
  simpl. rewrite Hc. reflexivity.
Qed.

(** X18 -- The key of an encoded timestamp is the timestamp.  For every
    [ms] from 0 to below 2^53, [extractTimestamp] maps the remote
    encoding [/Date(ms)/] to [ms], also when a time-zone suffix that does
    not start with a digit follows the number, as in
    [/Date(ms+0200)/]. *)
Theorem extractTimestamp_reads_back ms suffix :
  0 <= ms < 2 ^ 53 ->
  digits_prefix suffix = "" ->
  extractTimestamp (Date_encoding ms suffix) = Finite ms.
Proof.
  intros [H0 H53] Hsuffix. unfold extractTimestamp, Date_encoding.
  change (match_digits ("/Date(" +:+ show_Z ms +:+ suffix +:+ ")/"))
    with (match_digits (show_Z ms +:+ suffix +:+ ")/")).
  rewrite (match_digits_head _ _ (show_Z_nonempty _ H0) (show_Z_digits _ H0)).
  rewrite (digits_prefix_app _ _ (show_Z_digits _ H0)
             (digits_prefix_suffix _ ")/" Hsuffix eq_refl)).
  rewrite (parseInt_run _ (show_Z_nonempty _ H0)).
  - rewrite (decimal_value_show_Z _ H0). apply toNumber_exact. lia.
  - rewrite <- (append_empty_r (show_Z ms)) at 1.
    rewrite (digits_prefix_app _ "" (show_Z_digits _ H0) eq_refl). reflexivity.
Qed.
Lemma extractTimestamp_witness :
  extractTimestamp "/Date(1700000000000+0200)/" = Finite 1700000000000.
Proof.
  refine (extractTimestamp_reads_back 1700000000000 "+0200" _ _).
  - split; [discriminate | reflexivity].
  - reflexivity.
Defined.

(** ** Readings that share a key within one batch *)

Lemma Reading_eqb_eq a b : Reading_eqb a b = true -> a = b.
Proof.
  unfold Reading_eqb. intros H.
  repeat (apply andb_prop in H as [H ?]).
  destruct a, b; simpl in *.
  repeat match goal with
         | Heq : (_ =? _)%string = true |- _ => apply String.eqb_eq in Heq
         end.
  apply Z.eqb_eq in H. congruence.
Qed.

(** X19 -- Duplicates are suppressed against the ledger only, not
    within a batch.  A reading whose key is not in the ledger occurs among
    the readings to upload as often as the source returned it. *)
Theorem batch_is_not_deduplicated s readings r :
  key r ∉ syncedTimestamps s ->
  occurrences r (fresh s readings) = occurrences r readings.
Proof.
  intros Hnew. apply is_new_true in Hnew. unfold occurrences, fresh.
  induction readings as [|x rs IH]; [reflexivity|].
  simpl. destruct (Reading_eqb r x) eqn:Hx.
  - pose proof (Reading_eqb_eq _ _ Hx) as Heq. subst x. rewrite Hnew. simpl.
    rewrite Hx. simpl. rewrite IH. reflexivity.
  - destruct (is_new (syncedTimestamps s) x); simpl; rewrite ?Hx; exact IH.
Qed.
Lemma batch_witness :
  occurrences (Scenario.reading_at 103 "/Date(300)/")
    (fresh (Scenario.syncer_with {[Finite 100; Finite 200]})
       [Scenario.reading_at 103 "/Date(300)/"; Scenario.reading_at 101 "/Date(100)/";
        Scenario.reading_at 103 "/Date(300)/"])
  = 2%nat.
Proof.
  rewrite (batch_is_not_deduplicated
             (Scenario.syncer_with {[Finite 100; Finite 200]})
             [Scenario.reading_at 103 "/Date(300)/";
              Scenario.reading_at 101 "/Date(100)/";
              Scenario.reading_at 103 "/Date(300)/"]
             (Scenario.reading_at 103 "/Date(300)/")).
  - reflexivity.
  - apply (proj1 (bool_decide_eq_false _)). vm_compute. reflexivity.
Defined.


(** ** The connection test *)

Lemma sends_only_authentication : sends_only authentication_request authenticate.
Proof. unfold authenticate. sends_only_tac. Qed.

(** X20 -- [testConnections] tests the destination whatever the source
    test gave, and only by authenticating.  The requests it sends to the
    destination are requests of [authenticate]; when it returns, the
    destination side of the result is the outcome of that authentication
    alone; it fails to return only when the source test or that
    authentication does not settle. *)
Theorem testConnections_contract s src dst :
  (exists l,
      sent (testConnections s src dst).2 = (sent dst ++ l)%list
      /\ Forall authentication_request l)
  /\ (forall results,
      (testConnections s src dst).1.1.1 = Some results ->
      match (authenticate (destClient s) dst).1.1 with
      | Ret _ => results_dest results = mkSide true None None
      | Throw e => results_dest results = mkSide false (Some e) None
      | Pending => False
      end)
  /\ ((testConnections s src dst).1.1.1 = None ->
      (test_source (sourceClient s) src).1.1 = Pending
      \/ (authenticate (destClient s) dst).1.1 = Pending).
Proof.
  unfold testConnections.
  destruct (test_source (sourceClient s) src) as [[[v|e|] c] src1]; simpl.
  3:{ split; [exists []; rewrite app_nil_r; auto|].
      split; [discriminate | auto]. }
  all: unfold test_dest, bind, ret;
    destruct (sends_only_authentication (destClient s) dst) as (l & Hl & HP);
    destruct (authenticate (destClient s) dst) as [[[v'|e'|] d] dst1]; simpl in *;
    (split; [exists l; auto|]);
    (split; [intros results [= <-]; reflexivity || discriminate | ]);
    try discriminate; auto.
Qed.
